(** * Registration and onboarding handlers of the issuing-treasury demo

    A shallow embedding of
      - [src/expense-management/src/pages/api/register.ts]  (the [register] handler),
      - [src/unnamed/part_000]                              (the [onboard] handler),
      - [src/unnamed/part_001]                              ([hasOutstandingRequirements],
                                                             [createAccountOnboardingUrl]),
      - [src/src/pages/auth/register.tsx]                   (the form's [validationSchema]).

    JavaScript objects are finite maps from property names to JSON values,
    object literals with spreads are folded left to right, and the handlers
    run in a state-and-exception monad over a world made of the user table,
    the payments provider and a log of the calls that left the process. *)

From Stdlib Require Import ZArith Ascii String.
From stdpp Require Import gmap strings list fin_maps pretty.

Set Warnings "-register-all".

Open Scope string_scope.
Open Scope list_scope.

(* ===================================================================== *)
(** ** JSON values and object literals *)
(* ===================================================================== *)

Inductive JSON : Type :=
| JStr (s : string)
| JNum (n : Z)
| JBool (b : bool)
| JObj (o : gmap string JSON).

(** One line of an object literal: [k: v] or [...(e)].  A spread of a falsy
    value ([cond && {...}] with [cond] false) contributes nothing.  A
    property whose value is [undefined] is not sent over the wire, so
    [FieldOpt k None] leaves the object as it is. *)
Inductive Entry : Type :=
| Field (k : string) (v : JSON)
| FieldOpt (k : string) (v : option JSON)
| Spread (o : option (gmap string JSON)).

Definition add_entry (acc : gmap string JSON) (e : Entry) : gmap string JSON :=
  match e with
  | Field k v => <[k := v]> acc
  | FieldOpt k (Some v) => <[k := v]> acc
  | FieldOpt k None => delete k acc
  | Spread (Some o) => o ∪ acc
  | Spread None => acc
  end.

(** [{ e1, e2, ... }]: later entries override earlier ones. *)
Definition obj (entries : list Entry) : gmap string JSON :=
  foldl add_entry ∅ entries.

(** [cond && { ... }] *)
Definition and_obj (cond : bool) (o : gmap string JSON) : option (gmap string JSON) :=
  if cond then Some o else None.

(** Property access along a path, [v.k1.k2...]; [None] is [undefined]. *)
Fixpoint get_path (path : list string) (v : JSON) : option JSON :=
  match path with
  | [] => Some v
  | k :: rest =>
      match v with
      | JObj o => match o !! k with
                  | Some v' => get_path rest v'
                  | None => None
                  end
      | _ => None
      end
  end.

Definition has_path (path : list string) (o : gmap string JSON) : bool :=
  match get_path path (JObj o) with Some _ => true | None => false end.

(* ===================================================================== *)
(** ** The validation library (Yup), with [abortEarly: false] *)
(* ===================================================================== *)

(** The [length] of a JavaScript string counts UTF-16 code units.  Strings
    are kept here as their UTF-8 text, so the length is read off the lead
    bytes: a continuation byte adds nothing, a one-, two- or three-byte
    sequence is one unit, a four-byte sequence is a surrogate pair. *)
Definition utf16_units (c : ascii) : nat :=
  let n := nat_of_ascii c in
  if Nat.ltb n 128 then 1
  else if Nat.ltb n 192 then 0
  else if Nat.ltb n 240 then 1
  else 2.

Fixpoint js_length (s : string) : nat :=
  match s with
  | EmptyString => 0
  | String c rest => utf16_units c + js_length rest
  end.

Module Yup.

(** A test of a string schema: the predicate on the (possibly absent) value
    and the message reported when it fails. *)
Record Test : Type := mkTest {
  test_ok : option string → bool;
  test_message : string;
}.

(** [.required(msg)]: absent and empty values fail. *)
Definition required (msg : string) : Test :=
  mkTest (λ v, match v with
               | Some s => negb (String.eqb s "")
               | None => false
               end) msg.

(** [.max(n, msg)] and [.min(n, msg)] compare [value.length]; absent values
    pass. *)
Definition max (n : nat) (msg : string) : Test :=
  mkTest (λ v, match v with
               | Some s => Nat.leb (js_length s) n
               | None => true
               end) msg.

Definition min (n : nat) (msg : string) : Test :=
  mkTest (λ v, match v with
               | Some s => Nat.leb n (js_length s)
               | None => true
               end) msg.

(** [.matches(regex, msg)]: absent values pass, the empty string is
    searched like any other. *)
Definition matches (regex : string → bool) (msg : string) : Test :=
  mkTest (λ v, match v with
               | Some s => regex s
               | None => true
               end) msg.

(** [.email(msg)]: a [matches] that lets the empty string through. *)
Definition email_test (regex : string → bool) (msg : string) : Test :=
  mkTest (λ v, match v with
               | Some s => String.eqb s "" || regex s
               | None => true
               end) msg.

(** [.oneOf(values, msg)]: absent values pass. *)
Definition oneOf (values : list string) (msg : string) : Test :=
  mkTest (λ v, match v with
               | Some s => bool_decide (s ∈ values)
               | None => true
               end) msg.

(** The [message] of the [ValidationError] that aggregates the failures:
    the failure's own message when there is one, a count when there are
    several. *)
Definition ValidationError_message (errors : list string) : string :=
  match errors with
  | [ m ] => m
  | _ => pretty (length errors) +:+ " errors occurred"
  end.

End Yup.

Abbreviation Test := Yup.Test.
Abbreviation test_ok := Yup.test_ok.
Abbreviation test_message := Yup.test_message.

(** A one-character class [[lo-hi]] searched anywhere in the string. *)
Definition in_class (lo hi c : ascii) : bool :=
  Nat.leb (nat_of_ascii lo) (nat_of_ascii c)
  && Nat.leb (nat_of_ascii c) (nat_of_ascii hi).

Fixpoint search_class (lo hi : ascii) (s : string) : bool :=
  match s with
  | EmptyString => false
  | String c rest => in_class lo hi c || search_class lo hi rest
  end.

(** An object schema: its fields in declaration order, each with the tests
    of its string schema in the order they were chained. *)
Definition Schema : Type := list (string * list Test).

(** The messages of the tests of one field that fail on [v]; no test is
    skipped because an earlier one failed. *)
Definition failures (tests : list Test) (v : option string) : list string :=
  test_message <$> filter (λ t, test_ok t v = false) tests.

(** [schema.validate(record, { abortEarly: false })]: the messages of all
    failing tests of all fields. *)
Definition validate_all (schema : Schema) (record : gmap string string) : list string :=
  schema ≫= (λ kt, failures kt.2 (record !! kt.1)).

(** The record literal [{ k1: v1, ... }] handed to [validate]; [undefined]
    values read back as absent. *)
Definition record_of (fields : list (string * option string)) : gmap string string :=
  foldl (λ acc kv, match kv.2 with
                   | Some v => <[kv.1 := v]> acc
                   | None => delete kv.1 acc
                   end) ∅ fields.

(* ===================================================================== *)
(** ** Exceptions, responses and the data of the handlers *)
(* ===================================================================== *)

(** What a [throw] carries: the validation library's error with the list of
    all messages, or a plain [Error]. *)
Inductive Exn : Type :=
| ValidationError (errors : list string)
| Error (message : string).

Inductive Outcome (A : Type) : Type :=
| Returned (a : A)
| Thrown (e : Exn).
Arguments Returned {A} a.
Arguments Thrown {A} e.

Definition returned {A : Type} (r : Outcome A) : option A :=
  match r with Returned a => Some a | Thrown _ => None end.

(** [schema.validate] resolves when nothing failed and rejects with the
    aggregated error otherwise. *)
Definition validate_result (errors : list string) : Outcome unit :=
  match errors with
  | [] => Returned ()
  | _ :: _ => Thrown (ValidationError errors)
  end.

(** Modelled from the spec: the envelope of [src/types/api-response], which
    is not among the sources: [{ success, data?, error?: { message } }]. *)
Module ApiResponse.
Record t : Type := mk {
  success : bool;
  data : option (gmap string JSON);
  error : option string;
}.
End ApiResponse.

(** What [res.status(n).json(body)] sends. *)
Module Response.
Record t : Type := mk {
  status : Z;
  json : ApiResponse.t;
}.
End Response.

(** Modelled from the spec: [apiResponse] of [src/types/api-response]
    builds the envelope from the fields it is given. *)
Definition apiResponse (success : bool) (data : option (gmap string JSON))
    (error_message : option string) : ApiResponse.t :=
  ApiResponse.mk success data error_message.

(** Modelled from the spec: the platform of [src/utils/platform], which is
    not among the sources: the tenant configuration a country is served
    from, a string at run time. *)
Definition Platform : Type := string.

Module User.
Record t : Type := mk {
  email : string;
  password : string;
  accountId : string;
  country : string;
}.
End User.

Module Requirements.
Record t : Type := mk {
  currently_due : option (list string);
}.
End Requirements.

(** The part of the provider's account object the handlers read. *)
Module Account.
Record t : Type := mk {
  id : string;
  requirements : option Requirements.t;
}.
End Account.

Module RegisterBody.
Record t : Type := mk {
  email : option string;
  password : option string;
  country : option string;
}.
End RegisterBody.

Module StripeAccount.
Record t : Type := mk {
  accountId : string;
  platform : Platform;
}.
End StripeAccount.

(** Modelled from the spec: the enumeration of
    [src/types/financial_product], which is not among the sources; the
    handler only asks whether the product is Embedded Finance, the
    alternative to the Expense Management example. *)
Inductive FinancialProduct : Type :=
| ExpenseManagement
| EmbeddedFinance.

#[export] Instance FinancialProduct_eq_dec : EqDecision FinancialProduct.
Proof. solve_decision. Defined.

Module Session.
Record t : Type := mk {
  email : string;
  stripeAccount : StripeAccount.t;
  country : string;
  financialProduct : FinancialProduct;
}.
End Session.

Module OnboardBody.
Record t : Type := mk {
  businessName : string;
  skipOnboarding : option bool;
}.
End OnboardBody.

(** Truthiness of an optional boolean: only [true] is truthy. *)
Definition truthy (b : option bool) : bool :=
  match b with Some true => true | _ => false end.

(** The calls that leave the process, with what came back. *)
Inductive Event : Type :=
| AccountsCreate (platform : Platform) (params : gmap string JSON) (result : option string)
| AccountsUpdate (platform : Platform) (id : string) (params : gmap string JSON) (ok : bool)
| AccountLinksCreate (params : gmap string JSON) (result : option string)
| AccountsRetrieve (id : string)
| UserCreate (row : User.t).

(* ===================================================================== *)
(** ** What the handlers are given *)
(* ===================================================================== *)

(** The payments provider, a black box with a typed contract: each call
    either returns or throws and may change the provider's state;
    retrieving an account only reads it. *)
Class Gateway (Stripe : Type) : Type := {
  accounts_create : Platform → gmap string JSON → Stripe → Outcome Account.t * Stripe;
  accounts_update : Platform → string → gmap string JSON → Stripe → Outcome unit * Stripe;
  accountLinks_create : gmap string JSON → Stripe → Outcome string * Stripe;
  accounts_retrieve : string → Stripe → Outcome (option Account.t);
}.

(** Third-party libraries: the validation library's e-mail pattern and the
    [message] it gives an error that aggregates several, and the password
    hash. *)
Class Libraries : Type := {
  email_regex : string → bool;
  error_message : list string → string;
  bcrypt_hash : string → nat → string;
}.

(** The process configuration and the constants and tables of modules that
    are not among the sources: the demo-mode flag, the fixed terms-of-service
    record, the base redirect URL of the environment, the platform of a
    country, the supported countries, and the two schemas of the onboarding
    payload (what [validate] with [abortEarly: false] reports for a body). *)
Class Config : Type := {
  isDemoMode : bool;
  TOS_ACCEPTANCE : JSON;
  CONNECT_ONBOARDING_REDIRECT_URL : option string;
  getPlatform : option string → Platform;
  supported_countries : list string;
  business_default : OnboardBody.t → list string;
  business_withOnbardingSkip : OnboardBody.t → list string;
}.

(** Modelled from the spec: the persistence layer ([src/db] and the schema
    of the User table are not among the sources) can refuse an insert for
    reasons the handler does not see (§4.2, §7); [user_create_error table
    row] is the error [prisma.user.create] then throws. *)
Class Database : Type := {
  user_create_error : list User.t → User.t → option Exn;
}.

(** [(error as Error).message] *)
Definition message_of `{!Libraries} (e : Exn) : string :=
  match e with
  | ValidationError errors => error_message errors
  | Error message => message
  end.

(* ===================================================================== *)
(** ** src/src/pages/auth/register.tsx *)
(* ===================================================================== *)

Definition getCharacterValidationError (str : string) : string :=
  "Your password must have at least 1 " +:+ str +:+ " character".

Definition email_tests `{!Libraries} : list Test :=
  [ Yup.email_test email_regex "Must be a valid email";
    Yup.max 255 "email must be at most 255 characters";
    Yup.required "Email is required" ].

Definition password_tests : list Test :=
  [ Yup.max 255 "password must be at most 255 characters";
    Yup.required "Password is required";
    Yup.min 8 "Password must have at least 8 characters";
    Yup.matches (search_class "0" "9") (getCharacterValidationError "digit");
    Yup.matches (search_class "a" "z") (getCharacterValidationError "lowercase");
    Yup.matches (search_class "A" "Z") (getCharacterValidationError "uppercase") ].

Definition validationSchema `{!Libraries} : Schema :=
  [ ("email", email_tests); ("password", password_tests) ].

(** Modelled from the spec: the country rule of [validationSchemas.user]:
    the country must be present and a supported country code. *)
Definition country_tests `{!Config} : list Test :=
  [ Yup.required "Country is required";
    Yup.oneOf supported_countries "Country is not supported" ].

(** Modelled from the spec: [validationSchemas.user] of
    [src/utils/validation_schemas], which is not among the sources.  The
    e-mail and password constraints are those of the registration inputs
    (a valid e-mail of at most 255 characters; a password of 8 to 255
    characters with a digit, a lowercase and an uppercase letter), with the
    messages of the form's schema, followed by the country rule. *)
Definition validationSchemas_user `{!Libraries} `{!Config} : Schema :=
  validationSchema ++ [ ("country", country_tests) ].

(* ===================================================================== *)
(** ** The world and the monad of the handlers *)
(* ===================================================================== *)

Section Handlers.

Context {Stripe : Type} `{!Gateway Stripe} `{!Libraries} `{!Config} `{!Database}.

(** The user table, the provider's state, and the calls made so far. *)
Record World : Type := mkWorld {
  users : list User.t;
  stripe : Stripe;
  log : list Event;
}.

(** An [async] function: it runs against the world and returns or throws. *)
Definition M (A : Type) : Type := World → Outcome A * World.

Definition ret {A : Type} (a : A) : M A := λ w, (Returned a, w).

Definition throw {A : Type} (e : Exn) : M A := λ w, (Thrown e, w).

(** [await]: an exception of the awaited call ends the caller. *)
Definition bind {A B : Type} (m : M A) (k : A → M B) : M B :=
  λ w, match m w with
       | (Returned a, w') => k a w'
       | (Thrown e, w') => (Thrown e, w')
       end.

Notation "'let*' x ':=' m 'in' k" := (bind m (λ x, k))
  (at level 10, x binder, k at level 200).

Definition emit (e : Event) (w : World) : World :=
  mkWorld (users w) (stripe w) (log w ++ [e]).

(** The calls a run added to the log. *)
Definition new_events (w w' : World) : list Event :=
  drop (length (log w)) (log w').

(** *** The persistence layer *)

(** [prisma.user.findFirst({ where: { email } })]: the first row with that
    e-mail; an [undefined] filter matches every row. *)
Definition prisma_user_findFirst (email : option string) : M (option User.t) :=
  λ w, (Returned
          match email with
          | Some e => head (filter (λ u, User.email u = e) (users w))
          | None => head (users w)
          end, w).

(** Modelled from the spec: the User table, whose schema is not among the
    sources: the four columns are required and the e-mail is unique.
    [prisma.user.create({ data })] appends the row, or throws: on a missing
    column, on an e-mail that is taken, or when the database refuses the
    insert; a refused insert leaves the table as it was. *)
Definition prisma_user_create (email : option string) (password accountId : string)
    (country : option string) : M User.t :=
  λ w, match email, country with
       | Some e, Some c =>
           if bool_decide (e ∈ User.email <$> users w)
           then (Thrown (Error "Unique constraint failed on the fields: (`email`)"), w)
           else
             let row := User.mk e password accountId c in
             match user_create_error (users w) row with
             | Some err => (Thrown err, w)
             | None =>
                 (Returned row,
                  mkWorld (users w ++ [row]) (stripe w) (log w ++ [UserCreate row]))
             end
       | _, _ => (Thrown (Error "Argument missing"), w)
       end.

(** [bcrypt.hash(data, rounds)] rejects when there is no data. *)
Definition bcrypt_hash_async (data : option string) (rounds : nat) : M string :=
  match data with
  | Some s => ret (bcrypt_hash s rounds)
  | None => throw (Error "data and salt arguments required")
  end.

(** *** The payments-provider client *)

Definition stripe_accounts_create (platform : Platform) (params : gmap string JSON)
    : M Account.t :=
  λ w, let '(r, s') := accounts_create platform params (stripe w) in
       (r, mkWorld (users w) s'
             (log w ++ [AccountsCreate platform params (Account.id <$> returned r)])).

Definition stripe_accounts_update (platform : Platform) (id : string)
    (params : gmap string JSON) : M unit :=
  λ w, let '(r, s') := accounts_update platform id params (stripe w) in
       (r, mkWorld (users w) s'
             (log w ++ [AccountsUpdate platform id params
                          (match r with Returned _ => true | Thrown _ => false end)])).

Definition stripe_accountLinks_create (params : gmap string JSON) : M string :=
  λ w, let '(r, s') := accountLinks_create params (stripe w) in
       (r, mkWorld (users w) s' (log w ++ [AccountLinksCreate params (returned r)])).

Definition stripe_accounts_retrieve (id : string) : M (option Account.t) :=
  λ w, (accounts_retrieve id (stripe w), emit (AccountsRetrieve id) w).

Definition res_status_json (status : Z) (body : ApiResponse.t) : M Response.t :=
  ret (Response.mk status body).

(* ===================================================================== *)
(** ** src/expense-management/src/pages/api/register.ts *)
(* ===================================================================== *)

(** The argument of [stripe.accounts.create]. *)
Definition accountCreateParams (email country : option string) : gmap string JSON :=
  obj [ Field "type" (JStr "custom");
        FieldOpt "country" (JStr <$> country);
        FieldOpt "email" (JStr <$> email);
        Spread (and_obj isDemoMode
                  (obj [ Field "business_type" (JStr "individual");
                         Field "individual"
                           (JObj (obj [ Field "id_number" (JStr "000000000") ])) ]));
        Field "capabilities"
          (JObj (obj [ Field "transfers" (JObj (obj [ Field "requested" (JBool true) ]));
                       Field "card_issuing" (JObj (obj [ Field "requested" (JBool true) ])) ])) ].

(** [{ requested: true }] *)
Definition requested : JSON := JObj (obj [ Field "requested" (JBool true) ]).

(** What [validationSchemas.user.validate({ email, password, country },
    { abortEarly: false })] reports for a body. *)
Definition register_errors (body : RegisterBody.t) : list string :=
  validate_all validationSchemas_user
    (record_of [ ("email", RegisterBody.email body);
                 ("password", RegisterBody.password body);
                 ("country", RegisterBody.country body) ]).

Definition register (body : RegisterBody.t) : M Response.t :=
  let email := RegisterBody.email body in
  let password := RegisterBody.password body in
  let country := RegisterBody.country body in
  match validate_result (register_errors body) with
  | Thrown error =>
      res_status_json 400 (apiResponse false None (Some (message_of error)))
  | Returned _ =>
      (* Check if user exists *)
      let* user := prisma_user_findFirst email in
      match user with
      | Some _ =>
          res_status_json 400 (apiResponse false None (Some "Account already exists"))
      | None =>
          (* Create a Connected Account *)
          let platform := getPlatform country in
          let* account := stripe_accounts_create platform (accountCreateParams email country) in
          (* Create the user *)
          let* hashedPassword := bcrypt_hash_async password 10 in
          let* _ := prisma_user_create email hashedPassword (Account.id account) country in
          res_status_json 200 (apiResponse true None None)
      end
  end.

(* ===================================================================== *)
(** ** src/unnamed/part_001 *)
(* ===================================================================== *)

Definition IGNORE_REQUIREMENTS : list string := [ "external_account" ].

(** [account?.requirements?.currently_due]: [undefined] as soon as a link
    of the chain is absent. *)
Definition currently_due_of (account : option Account.t) : option (list string) :=
  match account with
  | Some a =>
      match Account.requirements a with
      | Some r => Requirements.currently_due r
      | None => None
      end
  | None => None
  end.

(** [...?.filter((requirement) => !IGNORE_REQUIREMENTS.includes(requirement))] *)
Definition outstanding (account : option Account.t) : option (list string) :=
  match currently_due_of account with
  | Some l => Some (filter (λ requirement, requirement ∉ IGNORE_REQUIREMENTS) l)
  | None => None
  end.

Definition hasOutstandingRequirements (accountId : string) : M bool :=
  let* account := stripe_accounts_retrieve accountId in
  let result :=
    Nat.ltb 0 (match outstanding account with
               | Some l => length l
               | None => 0
               end) in
  ret result.

(** The argument of [stripe.accountLinks.create]. *)
Definition accountLinkParams (connectOnboardingRedirectUrl : string) (accountId : JSON)
    : gmap string JSON :=
  obj [ Field "type" (JStr "account_onboarding");
        Field "account" accountId;
        Field "refresh_url" (JStr (connectOnboardingRedirectUrl +:+ "/onboard"));
        Field "return_url" (JStr (connectOnboardingRedirectUrl +:+ "/")) ].

Definition createAccountOnboardingUrl (accountId : JSON) : M string :=
  match CONNECT_ONBOARDING_REDIRECT_URL with
  | None => throw (Error "CONNECT_ONBOARDING_REDIRECT_URL is not set")
  | Some connectOnboardingRedirectUrl =>
      stripe_accountLinks_create (accountLinkParams connectOnboardingRedirectUrl accountId)
  end.

(* ===================================================================== *)
(** ** src/unnamed/part_000 *)
(* ===================================================================== *)

Definition stripeAccount_json (sa : StripeAccount.t) : JSON :=
  JObj (obj [ Field "accountId" (JStr (StripeAccount.accountId sa));
              Field "platform" (JStr (StripeAccount.platform sa)) ]).

Definition onboardingData (session : Session.t) (body : OnboardBody.t) : gmap string JSON :=
  let email := Session.email session in
  let country := Session.country session in
  let financialProduct := Session.financialProduct session in
  let businessName := OnboardBody.businessName body in
  let skipOnboarding := OnboardBody.skipOnboarding body in
  obj [ Field "business_profile" (JObj (obj [ Field "name" (JStr businessName) ]));
        Spread (and_obj isDemoMode
          (obj [ Field "business_type" (JStr "individual");
                 Field "business_profile"
                   (JObj (obj [ Field "name" (JStr businessName);
                                Field "mcc" (JStr "5734");
                                Field "product_description" (JStr "Some demo product");
                                Field "url" (JStr "https://some-company.com") ]));
                 Field "company"
                   (JObj (obj [ Field "name" (JStr businessName);
                                Field "tax_id" (JStr "000000000") ]));
                 Field "individual"
                   (JObj (obj [ Field "address"
                                  (JObj (obj [ Field "line1" (JStr "address_full_match");
                                               Spread (and_obj (bool_decide (country = "US"))
                                                 (obj [ Field "city" (JStr "South San Francisco");
                                                        Field "state" (JStr "CA");
                                                        Field "postal_code" (JStr "94080") ]));
                                               Spread (and_obj (bool_decide (country = "GB"))
                                                 (obj [ Field "city" (JStr "London");
                                                        Field "postal_code" (JStr "WC32 4AP") ]));
                                               Field "country" (JStr country) ]));
                                Field "dob"
                                  (JObj (obj [ Field "day" (JNum 1);
                                               Field "month" (JNum 1);
                                               Field "year" (JNum 1901) ]));
                                Field "email" (JStr email);
                                Field "first_name" (JStr "John");
                                Field "last_name" (JStr "Smith");
                                Field "phone" (JStr "2015550123") ]));
                 Spread (and_obj (truthy skipOnboarding)
                   (obj [ Field "tos_acceptance" TOS_ACCEPTANCE ]));
                 Field "settings"
                   (JObj (obj [ Field "card_issuing"
                                  (JObj (obj [ Field "tos_acceptance" TOS_ACCEPTANCE ]));
                                Spread (and_obj
                                  (bool_decide (financialProduct = EmbeddedFinance))
                                  (obj [ Field "treasury"
                                           (JObj (obj [ Field "tos_acceptance"
                                                          TOS_ACCEPTANCE ])) ])) ])) ])) ].

Definition onboard (session : Session.t) (body : OnboardBody.t) : M Response.t :=
  let stripeAccount := Session.stripeAccount session in
  let accountId := StripeAccount.accountId stripeAccount in
  let platform := StripeAccount.platform stripeAccount in
  let skipOnboarding := OnboardBody.skipOnboarding body in
  let validationSchema :=
    if isDemoMode then business_withOnbardingSkip else business_default in
  match validate_result (validationSchema body) with
  | Thrown error =>
      res_status_json 400 (apiResponse false None (Some (message_of error)))
  | Returned _ =>
      let* _ := stripe_accounts_update platform accountId (onboardingData session body) in
      if isDemoMode && truthy skipOnboarding
      then res_status_json 200
             (apiResponse true (Some (obj [ Field "redirectUrl" (JStr "/") ])) None)
      else
        (* the Connect Onboarding URL that collects the KYC information *)
        let* onboardingUrl := createAccountOnboardingUrl (stripeAccount_json stripeAccount) in
        res_status_json 200
          (apiResponse true (Some (obj [ Field "redirectUrl" (JStr onboardingUrl) ])) None)
  end.

End Handlers.

Arguments World : clear implicits.
Arguments M : clear implicits.

(* ===================================================================== *)
(** ** A concrete setting, for running the handlers *)
(* ===================================================================== *)

Module Sample.

(** A provider that hands out the account ids of a script, fails when the
    script is exhausted, and reports [account] on retrieval. *)
Definition gateway (account : option Account.t) : Gateway (list string) := {|
  accounts_create _ _ s :=
    match s with
    | id :: rest =>
        (Returned (Account.mk id (Some (Requirements.mk (Some [ "external_account" ])))), rest)
    | [] => (Thrown (Error "provider unavailable"), [])
    end;
  accounts_update _ _ _ s := (Returned (), s);
  accountLinks_create _ s := (Returned "https://connect.example/setup/s/1", s);
  accounts_retrieve _ _ := Returned account;
|}.

(** The validation library's rendering of an error: the message itself
    when there is one, a count when there are several. *)
Definition libraries : Libraries := {|
  email_regex s := bool_decide ("@"%char ∈ list_ascii_of_string s);
  error_message := Yup.ValidationError_message;
  bcrypt_hash s rounds := "$2b$" +:+ pretty rounds +:+ "$" +:+ String.rev s;
|}.

Definition config (demo : bool) (redirect : option string) : Config := {|
  isDemoMode := demo;
  TOS_ACCEPTANCE := JObj (obj [ Field "date" (JNum 1691518261); Field "ip" (JStr "127.0.0.1") ]);
  CONNECT_ONBOARDING_REDIRECT_URL := redirect;
  getPlatform country := match country with Some "GB" => "UK" | _ => "US" end;
  supported_countries := [ "US"; "GB" ];
  business_default body :=
    if String.eqb (OnboardBody.businessName body) ""
    then [ "Business name is required" ] else [];
  business_withOnbardingSkip body :=
    if String.eqb (OnboardBody.businessName body) ""
    then [ "Business name is required" ] else [];
|}.

(** A database that takes every insert. *)
Definition database : Database := {| user_create_error _ _ := None |}.

Definition alice : User.t :=
  User.mk "alice@example.com" "$2b$10$1drowssaP" "acct_0" "US".

Definition empty_world (ids : list string) : World (list string) := mkWorld [] ids [].

Definition world_with_alice : World (list string) := mkWorld [ alice ] [ "acct_1" ] [].

Definition bob : RegisterBody.t :=
  RegisterBody.mk (Some "bob@example.com") (Some "Passw0rd1") (Some "US").

Definition account_due (due : option (list string)) : Account.t :=
  Account.mk "acct_0" (Some (Requirements.mk due)).

Definition account_bare : Account.t := Account.mk "acct_0" None.

Definition session (country : string) (product : FinancialProduct) : Session.t :=
  Session.mk "alice@example.com" (StripeAccount.mk "acct_0" "US") country product.

End Sample.

(** A provider that is down: every call throws. *)
Module Outage.

Definition unavailable : Exn := Error "provider unavailable".

Definition gateway : Gateway unit := {|
  accounts_create _ _ s := (Thrown unavailable, s);
  accounts_update _ _ _ s := (Thrown unavailable, s);
  accountLinks_create _ s := (Thrown unavailable, s);
  accounts_retrieve _ _ := Thrown unavailable;
|}.

(** A database that refuses every insert. *)
Definition database : Database := {|
  user_create_error _ _ := Some (Error "database unavailable");
|}.

Definition world : World unit := mkWorld [ Sample.alice ] () [].

End Outage.

(* ===================================================================== *)
(** ** Properties of src/unnamed/part_001 *)
(* ===================================================================== *)

Section OnboardingHelpers.

Context {Stripe : Type} `{!Gateway Stripe} `{!Config}.

Implicit Types (w : World Stripe) (account : option Account.t).

Lemma ignore_is_external (l : list string) :
  filter (λ requirement, requirement ∉ IGNORE_REQUIREMENTS) l
  = filter (λ requirement, requirement ≠ "external_account") l.
Proof.
  apply list_filter_iff. intros r. unfold IGNORE_REQUIREMENTS.
  rewrite list_elem_of_singleton. done.
Qed.

Lemma hasOutstandingRequirements_run accountId w account :
  accounts_retrieve accountId (stripe w) = Returned account →
  hasOutstandingRequirements accountId w
  = (Returned (Nat.ltb 0 (match outstanding account with
                          | Some l => length l
                          | None => 0
                          end)),
     emit (AccountsRetrieve accountId) w).
Proof.
  intros Hret. unfold hasOutstandingRequirements, bind, stripe_accounts_retrieve, ret.
  by rewrite Hret.
Qed.

Lemma ltb_length_nonempty {A : Type} (l : list A) :
  Nat.ltb 0 (length l) = true ↔ l ≠ [].
Proof. destruct l; simpl; split; intros; done. Qed.

(** C3. Once the provider has returned the account, the probe answers [true]
    exactly when the currently-due list (empty when absent) still has an
    entry after every "external_account" is removed.  It is [false] when
    "external_account" is all that is due and [true] as soon as something
    else is due.  The users and the provider's state are as before and the
    only call made is the retrieval. *)
Theorem hasOutstandingRequirements_iff accountId w account :
  accounts_retrieve accountId (stripe w) = Returned account →
  let due := default [] (currently_due_of account) in
  ∃ result : bool,
    hasOutstandingRequirements accountId w
    = (Returned result, mkWorld (users w) (stripe w) (log w ++ [ AccountsRetrieve accountId ]))
    ∧ (result = true ↔ filter (λ r, r ≠ "external_account") due ≠ [])
    ∧ (due = [ "external_account" ] → result = false)
    ∧ ((∃ r, r ∈ due ∧ r ≠ "external_account") → result = true).
Proof.
  intros Hret due. eexists. split; [ by apply hasOutstandingRequirements_run |].
  assert (Hiff : Nat.ltb 0 (match outstanding account with
                            | Some l => length l
                            | None => 0
                            end) = true
                 ↔ filter (λ r, r ≠ "external_account") due ≠ []).
  { subst due. unfold outstanding.
    destruct (currently_due_of account) as [l|]; simpl.
    - rewrite ignore_is_external. apply ltb_length_nonempty.
    - split; [ discriminate | done ]. }
  split; [ exact Hiff |]. split.
  - intros Hdue. apply not_true_is_false. rewrite Hiff, Hdue.
    intros Hne. apply Hne. reflexivity.
  - intros (r & Hin & Hne). apply Hiff. intros Hnil.
    assert (Hr : r ∈ filter (λ r, r ≠ "external_account") due)
      by (apply list_elem_of_filter; done).
    rewrite Hnil in Hr. by apply not_elem_of_nil in Hr.
Qed.

(** The three ways the chain [account?.requirements?.currently_due] is absent. *)
Lemma currently_due_of_absent account :
  currently_due_of account = None ↔
  account = None
  ∨ (∃ a, account = Some a ∧ Account.requirements a = None)
  ∨ (∃ a r, account = Some a ∧ Account.requirements a = Some r
            ∧ Requirements.currently_due r = None).
Proof.
  unfold currently_due_of. split.
  - destruct account as [a|]; [| by left ].
    destruct (Account.requirements a) as [r|] eqn:Hr; [| right; left; eauto ].
    intros Hd. right; right. eauto.
  - intros [-> | [(a & -> & ->) | (a & r & -> & -> & ->)]]; done.
Qed.

(** C10. When the retrieved account has no requirements object, or its
    requirements have no currently-due list (or the account itself is
    null), the probe returns [false]; it does not throw. *)
Theorem hasOutstandingRequirements_absent accountId w account :
  accounts_retrieve accountId (stripe w) = Returned account →
  account = None
  ∨ (∃ a, account = Some a ∧ Account.requirements a = None)
  ∨ (∃ a r, account = Some a ∧ Account.requirements a = Some r
            ∧ Requirements.currently_due r = None) →
  hasOutstandingRequirements accountId w
  = (Returned false, mkWorld (users w) (stripe w) (log w ++ [ AccountsRetrieve accountId ])).
Proof.
  intros Hret Habs. apply currently_due_of_absent in Habs.
  rewrite (hasOutstandingRequirements_run _ _ _ Hret).
  unfold outstanding. by rewrite Habs.
Qed.

Lemma createAccountOnboardingUrl_unset accountId w :
  CONNECT_ONBOARDING_REDIRECT_URL = None →
  createAccountOnboardingUrl accountId w
  = (Thrown (Error "CONNECT_ONBOARDING_REDIRECT_URL is not set"), w).
Proof. unfold createAccountOnboardingUrl. by intros ->. Qed.

Lemma createAccountOnboardingUrl_set accountId w base :
  CONNECT_ONBOARDING_REDIRECT_URL = Some base →
  let params := accountLinkParams base accountId in
  let r := accountLinks_create params (stripe w) in
  createAccountOnboardingUrl accountId w
  = (r.1, mkWorld (users w) r.2 (log w ++ [ AccountLinksCreate params (returned r.1) ])).
Proof.
  unfold createAccountOnboardingUrl. intros ->. cbv zeta.
  unfold stripe_accountLinks_create. by destruct (accountLinks_create _ _).
Qed.

(** C6. Without the base redirect URL the function throws and the world,
    log of provider calls included, is untouched; with it the function
    issues one account-link request and returns the URL the provider gave
    (or rethrows the provider's error). *)
Theorem createAccountOnboardingUrl_config accountId w :
  (CONNECT_ONBOARDING_REDIRECT_URL = None →
     createAccountOnboardingUrl accountId w
     = (Thrown (Error "CONNECT_ONBOARDING_REDIRECT_URL is not set"), w))
  ∧ (∀ base, CONNECT_ONBOARDING_REDIRECT_URL = Some base →
       let params := accountLinkParams base accountId in
       let r := accountLinks_create params (stripe w) in
       createAccountOnboardingUrl accountId w
       = (r.1, mkWorld (users w) r.2 (log w ++ [ AccountLinksCreate params (returned r.1) ]))
       ∧ ∀ url, r.1 = Returned url → (createAccountOnboardingUrl accountId w).1 = Returned url).
Proof.
  split.
  - apply createAccountOnboardingUrl_unset.
  - intros base Hbase. cbv zeta.
    rewrite (createAccountOnboardingUrl_set _ _ _ Hbase). by split.
Qed.

End OnboardingHelpers.

(* ===================================================================== *)
(** ** Properties of the validation layer *)
(* ===================================================================== *)

Lemma elem_of_failures (tests : list Test) (v : option string) (m : string) :
  m ∈ failures tests v ↔ ∃ t, t ∈ tests ∧ test_ok t v = false ∧ test_message t = m.
Proof.
  unfold failures. rewrite list_elem_of_fmap. split.
  - intros (t & -> & Ht). apply list_elem_of_filter in Ht as [Hf Hin]. eauto.
  - intros (t & Hin & Hf & <-). exists t. split; [ done |].
    by apply list_elem_of_filter.
Qed.

(** Nothing is skipped: a message is reported exactly when its test fails. *)
Lemma elem_of_validate_all (schema : Schema) (record : gmap string string) (m : string) :
  m ∈ validate_all schema record ↔
  ∃ k tests t, (k, tests) ∈ schema ∧ t ∈ tests
               ∧ test_ok t (record !! k) = false ∧ test_message t = m.
Proof.
  unfold validate_all. rewrite list_elem_of_bind. split.
  - intros ([k tests] & Hm & Hin). apply elem_of_failures in Hm as (t & ? & ? & ?).
    exists k, tests, t. done.
  - intros (k & tests & t & Hin & Ht & Hf & Hm). exists (k, tests). split; [| done ].
    apply elem_of_failures. eauto.
Qed.

Lemma failures_nil (tests : list Test) (v : option string) :
  failures tests v = [] ↔ ∀ t, t ∈ tests → test_ok t v = true.
Proof.
  split.
  - intros Hnil t Hin. destruct (test_ok t v) eqn:Hok; [ done |].
    assert (Hm : test_message t ∈ failures tests v) by (apply elem_of_failures; eauto).
    rewrite Hnil in Hm. by apply not_elem_of_nil in Hm.
  - intros Hall. destruct (failures tests v) as [|m l] eqn:Hf; [ done |].
    assert (Hm : m ∈ failures tests v) by (rewrite Hf; left).
    apply elem_of_failures in Hm as (t & Hin & Hok & _).
    rewrite (Hall t Hin) in Hok. discriminate.
Qed.

Lemma user_record_lookup (e p c : option string) :
  let record := record_of [ ("email", e); ("password", p); ("country", c) ] in
  record !! "email" = e ∧ record !! "password" = p ∧ record !! "country" = c.
Proof. destruct e, p, c; vm_compute; done. Qed.

Section UserSchema.

Context `{!Libraries} `{!Config}.

Lemma register_errors_fields body :
  register_errors body
  = failures email_tests (RegisterBody.email body)
    ++ failures password_tests (RegisterBody.password body)
    ++ failures country_tests (RegisterBody.country body).
Proof.
  unfold register_errors, validate_all, validationSchemas_user, validationSchema.
  destruct (user_record_lookup (RegisterBody.email body) (RegisterBody.password body)
              (RegisterBody.country body)) as (He & Hp & Hc).
  simpl in *. rewrite He, Hp, Hc. by rewrite app_nil_r.
Qed.

Lemma required_present (tests : list Test) (msg : string) (v : option string) :
  Yup.required msg ∈ tests → failures tests v = [] → ∃ s, v = Some s ∧ s ≠ "".
Proof.
  intros Hin Hnil. rewrite failures_nil in Hnil. specialize (Hnil _ Hin).
  destruct v as [s|]; simpl in Hnil; [| discriminate ].
  exists s. split; [ done |]. intros ->. discriminate.
Qed.

(** A body that passes validation has its three fields. *)
Lemma valid_body_fields body :
  register_errors body = [] →
  ∃ e p c, body = RegisterBody.mk (Some e) (Some p) (Some c).
Proof.
  rewrite register_errors_fields. intros Hnil.
  apply app_eq_nil in Hnil as [He Hnil]. apply app_eq_nil in Hnil as [Hp Hc].
  apply (required_present _ "Email is required") in He as (e & He & _);
    [| unfold email_tests; set_solver ].
  apply (required_present _ "Password is required") in Hp as (p & Hp & _);
    [| unfold password_tests; set_solver ].
  apply (required_present _ "Country is required") in Hc as (c & Hc & _);
    [| unfold country_tests; set_solver ].
  destruct body as [e' p' c']. simpl in *. subst. eauto.
Qed.

End UserSchema.

(* ===================================================================== *)
(** ** Properties of the registration handler *)
(* ===================================================================== *)

Lemma findFirst_None (e : string) (l : list User.t) :
  head (filter (λ u, User.email u = e) l) = None ↔ e ∉ User.email <$> l.
Proof.
  induction l as [|u l IH]; simpl.
  - split; [ intros _; apply not_elem_of_nil | done ].
  - rewrite filter_cons. case_decide as Hu; simpl.
    + split; [ discriminate |]. intros Hn. exfalso. apply Hn. rewrite Hu. left.
    + rewrite IH, not_elem_of_cons. split; [ intros ?; split; [ by intros -> | done ] | by intros [_ ?] ].
Qed.

Lemma filter_email_fresh (e : string) (l : list User.t) :
  e ∉ User.email <$> l → filter (λ u, User.email u = e) l = [].
Proof.
  intros Hfresh. induction l as [|u l IH]; [ done |].
  rewrite fmap_cons, not_elem_of_cons in Hfresh. destruct Hfresh as [Hne Hl].
  rewrite filter_cons. case_decide; [ congruence | auto ].
Qed.

Lemma new_events_app {Stripe : Type} (w : World Stripe) (us : list User.t) (s : Stripe)
    (evs : list Event) :
  new_events w (mkWorld us s (log w ++ evs)) = evs.
Proof. unfold new_events. simpl. by rewrite drop_app_length. Qed.

Lemma new_events_same {Stripe : Type} (w : World Stripe) : new_events w w = [].
Proof. unfold new_events. apply drop_all. Qed.

Section Register.

Context {Stripe : Type} `{!Gateway Stripe} `{!Libraries} `{!Config} `{!Database}.

Implicit Types (w : World Stripe) (body : RegisterBody.t).

(** Step 1 fails: the handler answers 400 and stops. *)
Lemma register_invalid body w :
  register_errors body ≠ [] →
  register body w
  = (Returned (Response.mk 400
       (apiResponse false None (Some (error_message (register_errors body))))), w).
Proof.
  intros Hne. unfold register.
  destruct (register_errors body) as [|m l] eqn:Herr; [ done |]. reflexivity.
Qed.

(** Step 2 finds a row: the handler answers 400 and stops. *)
Lemma register_duplicate body w e :
  register_errors body = [] →
  RegisterBody.email body = Some e →
  e ∈ User.email <$> users w →
  register body w
  = (Returned (Response.mk 400
       (apiResponse false None (Some "Account already exists"))), w).
Proof.
  intros Hvalid He Hin. unfold register. rewrite Hvalid, He. simpl.
  unfold bind, prisma_user_findFirst.
  destruct (head (filter (λ u, User.email u = e) (users w))) as [u|] eqn:Hhead;
    [ reflexivity |].
  apply findFirst_None in Hhead. done.
Qed.

(** Steps 3 to 7 for a valid body with a fresh e-mail, whatever the
    provider and the database answer. *)
Lemma register_fresh w e p c :
  let body := RegisterBody.mk (Some e) (Some p) (Some c) in
  let platform := getPlatform (Some c) in
  let params := accountCreateParams (Some e) (Some c) in
  register_errors body = [] →
  e ∉ User.email <$> users w →
  register body w
  = match accounts_create platform params (stripe w) with
    | (Returned account, s') =>
        let row := User.mk e (bcrypt_hash p 10) (Account.id account) c in
        match user_create_error (users w) row with
        | None =>
            (Returned (Response.mk 200 (apiResponse true None None)),
             mkWorld (users w ++ [ row ]) s'
               (log w ++ [ AccountsCreate platform params (Some (Account.id account));
                           UserCreate row ]))
        | Some err =>
            (Thrown err,
             mkWorld (users w) s'
               (log w ++ [ AccountsCreate platform params (Some (Account.id account)) ]))
        end
    | (Thrown err, s') =>
        (Thrown err,
         mkWorld (users w) s' (log w ++ [ AccountsCreate platform params None ]))
    end.
Proof.
  intros body platform params Hvalid Hfresh. unfold register. rewrite Hvalid. simpl.
  unfold bind at 1. unfold prisma_user_findFirst.
  apply findFirst_None in Hfresh as Hhead. rewrite Hhead.
  unfold bind, stripe_accounts_create. fold platform params.
  destruct (accounts_create platform params (stripe w)) as [[account|err] s'];
    [| reflexivity ].
  simpl. unfold prisma_user_create. simpl.
  rewrite bool_decide_eq_false_2 by done.
  destruct (user_create_error _ _) as [err|]; simpl; [ reflexivity |].
  by rewrite <- app_assoc.
Qed.

(** Every run of the handler is one of three: nothing happened; the
    provider was asked and the table is as before; or the provider
    returned an account and then one row carrying its id was appended. *)
Lemma register_runs body w :
  let w' := (register body w).2 in
  w' = w
  ∨ (∃ e c res s',
       RegisterBody.email body = Some e ∧ RegisterBody.country body = Some c
       ∧ w' = mkWorld (users w) s'
                (log w ++ [ AccountsCreate (getPlatform (Some c))
                              (accountCreateParams (Some e) (Some c)) res ]))
  ∨ (∃ e c account s' row,
       RegisterBody.email body = Some e ∧ RegisterBody.country body = Some c
       ∧ accounts_create (getPlatform (Some c)) (accountCreateParams (Some e) (Some c))
           (stripe w) = (Returned account, s')
       ∧ User.accountId row = Account.id account
       ∧ w' = mkWorld (users w ++ [ row ]) s'
                (log w ++ [ AccountsCreate (getPlatform (Some c))
                              (accountCreateParams (Some e) (Some c))
                              (Some (Account.id account));
                            UserCreate row ])).
Proof.
  intros w'. subst w'.
  destruct (register_errors body) as [|m l] eqn:Herr.
  - destruct (valid_body_fields body Herr) as (e & p & c & ->).
    destruct (decide (e ∈ User.email <$> users w)) as [Hin|Hfresh].
    + left. by rewrite (register_duplicate _ w e).
    + rewrite (register_fresh w e p c Herr Hfresh).
      destruct (accounts_create _ _ _) as [[account|err] s'] eqn:Hc; simpl.
      * destruct (user_create_error _ _) as [err|]; simpl.
        -- right; left. eexists e, c, (Some (Account.id account)), s'. done.
        -- right; right. eexists e, c, account, s', _. repeat split; done.
      * right; left. eexists e, c, None, s'. done.
  - left. rewrite register_invalid; [ done |]. by rewrite Herr.
Qed.

(** C1. A valid body whose e-mail has no row: the handler asks the provider
    for an account before anything is written.  When the provider returns
    one and the database takes the insert, the handler appends exactly one
    row, with that account's id and the hash of the password, and answers
    200 with the bare success envelope.  When the provider throws, the
    handler throws and the table is as before.  When the provider returns
    an account and the database refuses the insert, the handler throws,
    the table is as before and the account stays with the provider.  And
    for every body: if the table changed, then the log shows the account
    creation that succeeded immediately before the insert of the one new
    row. *)
Theorem register_creates_account_then_user body w :
  (register_errors body = [] →
   (∀ e, RegisterBody.email body = Some e → e ∉ User.email <$> users w) →
   ∃ e p c,
     body = RegisterBody.mk (Some e) (Some p) (Some c)
     ∧ let platform := getPlatform (Some c) in
       let params := accountCreateParams (Some e) (Some c) in
       match accounts_create platform params (stripe w) with
       | (Returned account, s') =>
           let row := User.mk e (bcrypt_hash p 10) (Account.id account) c in
           let created := AccountsCreate platform params (Some (Account.id account)) in
           match user_create_error (users w) row with
           | None =>
               register body w
               = (Returned (Response.mk 200 (apiResponse true None None)),
                  mkWorld (users w ++ [ row ]) s' (log w ++ [ created; UserCreate row ]))
               ∧ filter (λ u, User.email u = e) (users w ++ [ row ]) = [ row ]
           | Some err =>
               register body w
               = (Thrown err, mkWorld (users w) s' (log w ++ [ created ]))
           end
       | (Thrown err, s') =>
           register body w
           = (Thrown err,
              mkWorld (users w) s' (log w ++ [ AccountsCreate platform params None ]))
       end)
  ∧ (let w' := (register body w).2 in
     users w' ≠ users w →
     ∃ platform params account s' row,
       accounts_create platform params (stripe w) = (Returned account, s')
       ∧ User.accountId row = Account.id account
       ∧ users w' = users w ++ [ row ]
       ∧ new_events w w'
         = [ AccountsCreate platform params (Some (Account.id account)); UserCreate row ]).
Proof.
  split.
  - intros Hvalid Hfresh.
    destruct (valid_body_fields body Hvalid) as (e & p & c & ->).
    exists e, p, c. split; [ done |]. cbv zeta.
    specialize (Hfresh e eq_refl).
    rewrite (register_fresh w e p c Hvalid Hfresh). cbv zeta.
    destruct (accounts_create _ _ _) as [[account|err] s']; [| done ].
    destruct (user_create_error _ _) as [err|]; [ done |].
    split; [ done |].
    rewrite filter_app, (filter_email_fresh e (users w) Hfresh).
    rewrite filter_cons. simpl. by case_decide.
  - intros w' Hchanged.
    pose proof (register_runs body w) as Hruns. cbv zeta in Hruns. fold w' in Hruns.
    destruct Hruns as [Hsame | [Hasked | Hdone]].
    + by rewrite Hsame in Hchanged.
    + destruct Hasked as (e & c & res & s' & _ & _ & Hw'). by rewrite Hw' in Hchanged.
    + destruct Hdone as (e & c & account & s' & row & _ & _ & Hcreate & Hid & Hw').
      exists (getPlatform (Some c)), (accountCreateParams (Some e) (Some c)), account, s', row.
      rewrite Hw'. rewrite new_events_app. done.
Qed.

(** C2. A body whose e-mail already has a row is answered 400 and the world
    is left exactly as it was: no provider call, no row.  The message is
    "Account already exists" when the body passes validation, which runs
    first, and the validation message otherwise. *)
Theorem register_existing_account body w e :
  RegisterBody.email body = Some e →
  e ∈ User.email <$> users w →
  ∃ message,
    register body w
    = (Returned (Response.mk 400 (apiResponse false None (Some message))), w)
    ∧ (register_errors body = [] → message = "Account already exists")
    ∧ (register_errors body ≠ [] → message = error_message (register_errors body)).
Proof.
  intros He Hin. destruct (register_errors body) as [|m l] eqn:Herr.
  - exists "Account already exists". split; [| done ].
    by apply (register_duplicate body w e).
  - exists (error_message (m :: l)). split; [| done ].
    rewrite register_invalid; rewrite Herr; done.
Qed.

End Register.

Section RegisterRequest.

Context {Stripe : Type} `{!Gateway Stripe} `{!Libraries} `{!Config} `{!Database}.

Implicit Types (w : World Stripe) (body : RegisterBody.t).

(** The create-account request for a present e-mail and country, field by
    field. *)
Lemma accountCreateParams_fields (e c : string) :
  let params := accountCreateParams (Some e) (Some c) in
  params !! "type" = Some (JStr "custom")
  ∧ params !! "country" = Some (JStr c)
  ∧ params !! "email" = Some (JStr e)
  ∧ params !! "capabilities"
    = Some (JObj (<["card_issuing" := requested]> (<["transfers" := requested]> ∅)))
  ∧ params !! "business_type" = (if isDemoMode then Some (JStr "individual") else None)
  ∧ params !! "individual"
    = (if isDemoMode then Some (JObj {[ "id_number" := JStr "000000000" ]}) else None)
  ∧ dom params
    = {[ "type"; "country"; "email"; "capabilities" ]}
      ∪ (if isDemoMode then {[ "business_type"; "individual" ]} else ∅).
Proof.
  unfold accountCreateParams, requested. destruct isDemoMode.
  - do 6 (split; [ vm_compute; reflexivity |]).
    unfold obj, and_obj. cbn [foldl add_entry fmap option_fmap option_map].
    rewrite !dom_insert_L, dom_union_L, !dom_insert_L, !dom_empty_L. set_solver.
  - do 6 (split; [ vm_compute; reflexivity |]).
    unfold obj, and_obj. cbn [foldl add_entry fmap option_fmap option_map].
    rewrite !dom_insert_L, !dom_empty_L. set_solver.
Qed.

(** C7. Whenever a run of the handler asks the provider to create an
    account, the request has type "custom", the body's country and e-mail,
    and capabilities with exactly the keys transfers and card_issuing, both
    requested; in demo mode it also has business_type "individual" and the
    individual's synthetic id number, and outside demo mode it has neither
    field (and no field beyond the four). *)
Theorem register_create_request body w platform params result :
  AccountsCreate platform params result ∈ new_events w (register body w).2 →
  ∃ e c caps,
    RegisterBody.email body = Some e ∧ RegisterBody.country body = Some c
    ∧ params !! "type" = Some (JStr "custom")
    ∧ params !! "country" = Some (JStr c)
    ∧ params !! "email" = Some (JStr e)
    ∧ params !! "capabilities" = Some (JObj caps)
    ∧ dom caps = {[ "transfers"; "card_issuing" ]}
    ∧ caps !! "transfers" = Some requested
    ∧ caps !! "card_issuing" = Some requested
    ∧ (isDemoMode = true →
         params !! "business_type" = Some (JStr "individual")
         ∧ get_path [ "individual"; "id_number" ] (JObj params) = Some (JStr "000000000")
         ∧ dom params = {[ "type"; "country"; "email"; "capabilities";
                           "business_type"; "individual" ]})
    ∧ (isDemoMode = false →
         params !! "business_type" = None
         ∧ params !! "individual" = None
         ∧ dom params = {[ "type"; "country"; "email"; "capabilities" ]}).
Proof.
  intros Hev.
  assert (Hparams : ∃ e c, RegisterBody.email body = Some e
                           ∧ RegisterBody.country body = Some c
                           ∧ params = accountCreateParams (Some e) (Some c)).
  { pose proof (register_runs body w) as Hruns. cbv zeta in Hruns.
    destruct Hruns as [Hsame | [Hasked | Hdone]].
    - rewrite Hsame, new_events_same in Hev. by apply not_elem_of_nil in Hev.
    - destruct Hasked as (e & c & res & s' & He & Hc & Hw').
      rewrite Hw', new_events_app in Hev.
      apply list_elem_of_singleton in Hev. injection Hev as _ -> _. eauto.
    - destruct Hdone as (e & c & account & s' & row & He & Hc & _ & _ & Hw').
      rewrite Hw', new_events_app in Hev.
      apply elem_of_cons in Hev as [Hev | Hev].
      + injection Hev as _ -> _. eauto.
      + apply list_elem_of_singleton in Hev. discriminate. }
  destruct Hparams as (e & c & He & Hc & ->).
  destruct (accountCreateParams_fields e c)
    as (Htype & Hcountry & Hemail & Hcaps & Hbt & Hind & Hdom).
  exists e, c, (<["card_issuing" := requested]> (<["transfers" := requested]> ∅)).
  do 6 (split; [ done |]).
  split; [ rewrite !dom_insert_L, dom_empty_L; set_solver |].
  split; [ by rewrite lookup_insert_ne, lookup_insert_eq |].
  split; [ by rewrite lookup_insert_eq |].
  split; intros Hdemo; rewrite Hdemo in Hbt, Hind, Hdom.
  - split; [ done |]. split; [ simpl; by rewrite Hind |].
    rewrite Hdom. set_solver.
  - split; [ done |]. split; [ done |]. rewrite Hdom. set_solver.
Qed.

(** C9, as the code has it.  With the validation library rendering its
    aggregated error as it does, validation of the registration body checks
    every constraint: a message is among the errors exactly when its test
    fails, whatever the other tests did.  A body with errors is answered
    400 with the message of the aggregated error, which is the failure's
    own message when one test failed and the count "N errors occurred" when
    N tests, two or more, failed; the world is untouched.  The password
    "abcdefgh" fails the digit test and the uppercase test, and only those;
    with an e-mail and a country that pass, the answer is 400 with the
    message "2 errors occurred". *)
Theorem register_validation_message body w :
  (∀ errors, error_message errors = Yup.ValidationError_message errors) →
  let errors := register_errors body in
  (∀ m, m ∈ errors ↔
        ∃ t, test_message t = m
             ∧ ((t ∈ email_tests ∧ test_ok t (RegisterBody.email body) = false)
                ∨ (t ∈ password_tests ∧ test_ok t (RegisterBody.password body) = false)
                ∨ (t ∈ country_tests ∧ test_ok t (RegisterBody.country body) = false)))
  ∧ (errors ≠ [] →
     register body w
     = (Returned (Response.mk 400
          (apiResponse false None (Some (Yup.ValidationError_message errors)))), w))
  ∧ (∀ m, errors = [ m ] → Yup.ValidationError_message errors = m)
  ∧ ((2 ≤ length errors)%nat →
     Yup.ValidationError_message errors = pretty (length errors) +:+ " errors occurred")
  ∧ failures password_tests (Some "abcdefgh")
    = [ "Your password must have at least 1 digit character";
        "Your password must have at least 1 uppercase character" ]
  ∧ (RegisterBody.password body = Some "abcdefgh" →
     "Your password must have at least 1 digit character" ∈ errors
     ∧ "Your password must have at least 1 uppercase character" ∈ errors
     ∧ (register body w).2 = w
     ∧ (failures email_tests (RegisterBody.email body) = [] →
        failures country_tests (RegisterBody.country body) = [] →
        register body w
        = (Returned (Response.mk 400
             (apiResponse false None (Some "2 errors occurred"))), w))).
Proof.
  intros Hyup errors.
  assert (Hpw : failures password_tests (Some "abcdefgh")
                = [ "Your password must have at least 1 digit character";
                    "Your password must have at least 1 uppercase character" ])
    by reflexivity.
  assert (Hrun : errors ≠ [] →
                 register body w
                 = (Returned (Response.mk 400
                      (apiResponse false None (Some (Yup.ValidationError_message errors)))), w)).
  { intros Hne. subst errors. rewrite (register_invalid body w Hne). by rewrite Hyup. }
  split; [| split; [| split; [| split; [| split ] ] ] ].
  - intros m. subst errors.
    rewrite register_errors_fields, !elem_of_app, !elem_of_failures.
    split.
    + intros [(t & ? & ? & ?) | [(t & ? & ? & ?) | (t & ? & ? & ?)]];
        exists t; split; auto.
    + intros (t & Hm & [[? ?] | [[? ?] | [? ?]]]); eauto 8.
  - exact Hrun.
  - by intros m ->.
  - destruct errors as [|m1 [|m2 l]]; simpl; intros Hlen; [ lia | lia | reflexivity ].
  - exact Hpw.
  - intros Hp.
    assert (Hfields : errors
                      = failures email_tests (RegisterBody.email body)
                        ++ [ "Your password must have at least 1 digit character";
                             "Your password must have at least 1 uppercase character" ]
                        ++ failures country_tests (RegisterBody.country body)).
    { subst errors. by rewrite register_errors_fields, Hp, Hpw. }
    assert (Hne : errors ≠ []).
    { rewrite Hfields. intros Hnil. apply app_eq_nil in Hnil as [_ Hnil]. discriminate. }
    split; [ rewrite Hfields, !elem_of_app; right; left; left |].
    split; [ rewrite Hfields, !elem_of_app; right; left; right; left |].
    split; [ by rewrite (Hrun Hne) |].
    intros He Hc. rewrite (Hrun Hne), Hfields, He, Hc. reflexivity.
Qed.

End RegisterRequest.

(* ===================================================================== *)
(** ** Properties of the onboarding handler *)
(* ===================================================================== *)

Ltac payload_unfold :=
  unfold onboardingData;
  cbn [Session.email Session.country Session.financialProduct Session.stripeAccount
       OnboardBody.businessName OnboardBody.skipOnboarding].

Ltac country_cases country :=
  destruct (decide (country = "US")) as [->|?];
    [| destruct (decide (country = "GB")) as [->|?] ];
  rewrite ?bool_decide_eq_false_2 by done.

Section OnboardPayload.

Context `{!Config}.

Implicit Types (session : Session.t) (body : OnboardBody.t).

(** Outside demo mode the payload is the business name and nothing else. *)
Lemma onboardingData_plain session body :
  isDemoMode = false →
  onboardingData session body
  = obj [ Field "business_profile"
            (JObj (obj [ Field "name" (JStr (OnboardBody.businessName body)) ])) ].
Proof. intros Hdemo. unfold onboardingData. rewrite Hdemo. reflexivity. Qed.

(** C4, as the code has it. In demo mode the record at the account root is
    in the payload exactly when skipOnboarding is truthy; the record in the
    card-issuing settings is there whether or not skipOnboarding is
    requested, and the one in the treasury settings exactly when the
    financial product is Embedded Finance, again whatever skipOnboarding is. *)
Theorem onboardingData_tos session body :
  isDemoMode = true →
  let data := JObj (onboardingData session body) in
  get_path [ "tos_acceptance" ] data
  = (if truthy (OnboardBody.skipOnboarding body) then Some TOS_ACCEPTANCE else None)
  ∧ get_path [ "settings"; "card_issuing"; "tos_acceptance" ] data = Some TOS_ACCEPTANCE
  ∧ get_path [ "settings"; "treasury"; "tos_acceptance" ] data
    = (if bool_decide (Session.financialProduct session = EmbeddedFinance)
       then Some TOS_ACCEPTANCE else None).
Proof.
  intros Hdemo.
  destruct session as [email [accountId platform] country [|]];
    destruct body as [businessName [[|]|]];
    payload_unfold; rewrite Hdemo; country_cases country;
    cbv zeta; repeat split; vm_compute; reflexivity.
Qed.

Lemma onboardingData_name session body :
  get_path [ "business_profile"; "name" ] (JObj (onboardingData session body))
  = Some (JStr (OnboardBody.businessName body)).
Proof.
  destruct session as [email [accountId platform] country [|]];
    destruct body as [businessName [[|]|]];
    payload_unfold; destruct isDemoMode; country_cases country;
    vm_compute; reflexivity.
Qed.

Lemma onboardingData_individual session body :
  isDemoMode = true →
  let data := JObj (onboardingData session body) in
  get_path [ "individual"; "address"; "line1" ] data = Some (JStr "address_full_match")
  ∧ get_path [ "individual"; "dob" ] data
    = Some (JObj (obj [ Field "day" (JNum 1); Field "month" (JNum 1);
                        Field "year" (JNum 1901) ]))
  ∧ get_path [ "individual"; "email" ] data = Some (JStr (Session.email session))
  ∧ get_path [ "individual"; "address"; "country" ] data
    = Some (JStr (Session.country session)).
Proof.
  intros Hdemo.
  destruct session as [email [accountId platform] country [|]];
    destruct body as [businessName [[|]|]];
    payload_unfold; rewrite Hdemo; country_cases country;
    cbv zeta; repeat split; vm_compute; reflexivity.
Qed.

Lemma onboardingData_address_US session body :
  isDemoMode = true → Session.country session = "US" →
  get_path [ "individual"; "address" ] (JObj (onboardingData session body))
  = Some (JObj (obj [ Field "line1" (JStr "address_full_match");
                      Field "city" (JStr "South San Francisco");
                      Field "state" (JStr "CA");
                      Field "postal_code" (JStr "94080");
                      Field "country" (JStr "US") ])).
Proof.
  intros Hdemo.
  destruct session as [email [accountId platform] country [|]];
    destruct body as [businessName [[|]|]];
    payload_unfold; rewrite Hdemo; intros ->; vm_compute; reflexivity.
Qed.

Lemma onboardingData_address_GB session body :
  isDemoMode = true → Session.country session = "GB" →
  get_path [ "individual"; "address" ] (JObj (onboardingData session body))
  = Some (JObj (obj [ Field "line1" (JStr "address_full_match");
                      Field "city" (JStr "London");
                      Field "postal_code" (JStr "WC32 4AP");
                      Field "country" (JStr "GB") ])).
Proof.
  intros Hdemo.
  destruct session as [email [accountId platform] country [|]];
    destruct body as [businessName [[|]|]];
    payload_unfold; rewrite Hdemo; intros ->; vm_compute; reflexivity.
Qed.

Lemma onboardingData_address_other session body :
  isDemoMode = true →
  Session.country session ≠ "US" → Session.country session ≠ "GB" →
  get_path [ "individual"; "address" ] (JObj (onboardingData session body))
  = Some (JObj (obj [ Field "line1" (JStr "address_full_match");
                      Field "country" (JStr (Session.country session)) ])).
Proof.
  intros Hdemo.
  destruct session as [email [accountId platform] country [|]];
    destruct body as [businessName [[|]|]];
    payload_unfold; rewrite Hdemo; intros HUS HGB;
    rewrite !bool_decide_eq_false_2 by done; vm_compute; reflexivity.
Qed.

Lemma onboardingData_locality session body :
  isDemoMode = true →
  has_path [ "individual"; "address"; "city" ] (onboardingData session body)
  || has_path [ "individual"; "address"; "state" ] (onboardingData session body)
  || has_path [ "individual"; "address"; "postal_code" ] (onboardingData session body)
  = true
  ↔ Session.country session = "US" ∨ Session.country session = "GB".
Proof.
  intros Hdemo.
  destruct session as [email [accountId platform] country [|]];
    destruct body as [businessName [[|]|]];
    unfold has_path; payload_unfold; rewrite Hdemo; country_cases country;
    (split; [ first [ intros _; auto; fail | vm_compute; discriminate ]
            | first [ intros _; vm_compute; reflexivity | intros [?|?]; congruence ] ]).
Qed.

(** C8. The payload always has business_profile.name, the submitted name.
    In demo mode the individual has the sentinel first address line, the
    date of birth 1901-01-01 and the session's e-mail, and the address is:
    for US, the sentinel line with city, state, postal code and country;
    for GB, the sentinel line with city, postal code and country; for any
    other country, the sentinel line and the country only.  So a city,
    state or postal-code field is there exactly for US and GB.  Outside
    demo mode there is no individual at all. *)
Theorem onboardingData_profile session body :
  let data := JObj (onboardingData session body) in
  let country := Session.country session in
  let address := get_path [ "individual"; "address" ] data in
  get_path [ "business_profile"; "name" ] data = Some (JStr (OnboardBody.businessName body))
  ∧ (isDemoMode = true →
       get_path [ "individual"; "address"; "line1" ] data = Some (JStr "address_full_match")
       ∧ get_path [ "individual"; "dob" ] data
         = Some (JObj (obj [ Field "day" (JNum 1); Field "month" (JNum 1);
                             Field "year" (JNum 1901) ]))
       ∧ get_path [ "individual"; "email" ] data = Some (JStr (Session.email session))
       ∧ get_path [ "individual"; "address"; "country" ] data = Some (JStr country)
       ∧ (country = "US" →
            address
            = Some (JObj (obj [ Field "line1" (JStr "address_full_match");
                                Field "city" (JStr "South San Francisco");
                                Field "state" (JStr "CA");
                                Field "postal_code" (JStr "94080");
                                Field "country" (JStr "US") ])))
       ∧ (country = "GB" →
            address
            = Some (JObj (obj [ Field "line1" (JStr "address_full_match");
                                Field "city" (JStr "London");
                                Field "postal_code" (JStr "WC32 4AP");
                                Field "country" (JStr "GB") ])))
       ∧ (country ≠ "US" → country ≠ "GB" →
            address
            = Some (JObj (obj [ Field "line1" (JStr "address_full_match");
                                Field "country" (JStr country) ])))
       ∧ (has_path [ "individual"; "address"; "city" ] (onboardingData session body)
          || has_path [ "individual"; "address"; "state" ] (onboardingData session body)
          || has_path [ "individual"; "address"; "postal_code" ] (onboardingData session body)
          = true
          ↔ country = "US" ∨ country = "GB"))
  ∧ (isDemoMode = false → get_path [ "individual" ] data = None).
Proof.
  cbv zeta. split; [ apply onboardingData_name | split ].
  - intros Hdemo.
    destruct (onboardingData_individual session body Hdemo) as (? & ? & ? & ?).
    repeat (split; [ done |]).
    split; [ by apply onboardingData_address_US |].
    split; [ by apply onboardingData_address_GB |].
    split; [ by apply onboardingData_address_other |].
    by apply onboardingData_locality.
  - intros Hdemo. rewrite (onboardingData_plain _ _ Hdemo). reflexivity.
Qed.

End OnboardPayload.

Section Onboard.

Context {Stripe : Type} `{!Gateway Stripe} `{!Libraries} `{!Config}.

Implicit Types (w : World Stripe) (session : Session.t) (body : OnboardBody.t).

(** The handler once validation has passed and the provider has accepted
    the update. *)
Lemma onboard_updated session body w s1 :
  let sa := Session.stripeAccount session in
  let data := onboardingData session body in
  let w1 := mkWorld (users w) s1
              (log w ++ [ AccountsUpdate (StripeAccount.platform sa)
                            (StripeAccount.accountId sa) data true ]) in
  (if isDemoMode then business_withOnbardingSkip else business_default) body = [] →
  accounts_update (StripeAccount.platform sa) (StripeAccount.accountId sa) data (stripe w)
  = (Returned (), s1) →
  onboard session body w
  = if isDemoMode && truthy (OnboardBody.skipOnboarding body)
    then (Returned (Response.mk 200
            (apiResponse true (Some (obj [ Field "redirectUrl" (JStr "/") ])) None)), w1)
    else match createAccountOnboardingUrl (stripeAccount_json sa) w1 with
         | (Returned url, w2) =>
             (Returned (Response.mk 200
                (apiResponse true (Some (obj [ Field "redirectUrl" (JStr url) ])) None)), w2)
         | (Thrown e, w2) => (Thrown e, w2)
         end.
Proof.
  intros sa data w1 Hvalid Hupdate. unfold onboard. rewrite Hvalid. simpl.
  unfold bind at 1. unfold stripe_accounts_update.
  fold sa. fold data. rewrite Hupdate. fold w1.
  destruct (isDemoMode && truthy (OnboardBody.skipOnboarding body)); [ reflexivity |].
  unfold bind. by destruct (createAccountOnboardingUrl _ w1) as [[url|e] w2].
Qed.

Lemma redirect_url_inj (url url' : string) :
  Returned (Response.mk 200
    (apiResponse true (Some (obj [ Field "redirectUrl" (JStr url) ])) None))
  = Returned (Response.mk 200
      (apiResponse true (Some (obj [ Field "redirectUrl" (JStr url') ])) None)) →
  url = url'.
Proof.
  intros Heq.
  apply (f_equal (λ r : Outcome Response.t,
                    match r with
                    | Returned x =>
                        match ApiResponse.data (Response.json x) with
                        | Some o => o !! "redirectUrl"
                        | None => None
                        end
                    | Thrown _ => None
                    end)) in Heq.
  unfold obj in Heq. cbn [foldl add_entry apiResponse ApiResponse.data Response.json] in Heq.
  rewrite !lookup_insert_eq in Heq. by injection Heq.
Qed.

(** C5. After a valid body and an accepted update: when demo mode is on and
    skipOnboarding is truthy the handler answers 200 with redirectUrl "/"
    and the update is the only call it made.  Otherwise (so always outside
    demo mode) it goes through createAccountOnboardingUrl: without the base
    URL the handler throws; with it the handler issues one account-link
    request and answers 200 with the URL that request returned, or throws
    what the request threw.  So the answer is 200 with redirectUrl "/"
    exactly in the bypass, or when the link the provider handed out is
    itself "/"; and the answer "/" without a link request is given exactly
    in the bypass. *)
Theorem onboard_redirect session body w s1 :
  let sa := Session.stripeAccount session in
  let data := onboardingData session body in
  let update := AccountsUpdate (StripeAccount.platform sa)
                  (StripeAccount.accountId sa) data true in
  let w1 := mkWorld (users w) s1 (log w ++ [ update ]) in
  let redirect url := Response.mk 200
                        (apiResponse true (Some (obj [ Field "redirectUrl" (JStr url) ])) None) in
  let run := onboard session body w in
  let bypass := isDemoMode && truthy (OnboardBody.skipOnboarding body) in
  (if isDemoMode then business_withOnbardingSkip else business_default) body = [] →
  accounts_update (StripeAccount.platform sa) (StripeAccount.accountId sa) data (stripe w)
  = (Returned (), s1) →
  (bypass = true →
     run = (Returned (redirect "/"), w1) ∧ new_events w run.2 = [ update ])
  ∧ (bypass = false →
     (CONNECT_ONBOARDING_REDIRECT_URL = None →
        run = (Thrown (Error "CONNECT_ONBOARDING_REDIRECT_URL is not set"), w1))
     ∧ ∀ base, CONNECT_ONBOARDING_REDIRECT_URL = Some base →
         let params := accountLinkParams base (stripeAccount_json sa) in
         let link := accountLinks_create params s1 in
         run = (match link.1 with
                | Returned url => Returned (redirect url)
                | Thrown e => Thrown e
                end,
                mkWorld (users w) link.2
                  (log w ++ [ update; AccountLinksCreate params (returned link.1) ]))
         ∧ new_events w run.2 = [ update; AccountLinksCreate params (returned link.1) ]
         ∧ ∀ url, link.1 = Returned url → run.1 = Returned (redirect url))
  ∧ (run.1 = Returned (redirect "/")
     ↔ bypass = true
       ∨ (bypass = false
          ∧ ∃ base, CONNECT_ONBOARDING_REDIRECT_URL = Some base
                    ∧ (accountLinks_create (accountLinkParams base (stripeAccount_json sa)) s1).1
                      = Returned "/"))
  ∧ ((run.1 = Returned (redirect "/")
      ∧ ∀ params res, AccountLinksCreate params res ∉ new_events w run.2)
     ↔ bypass = true).
Proof.
  intros sa data update w1 redirect run bypass Hvalid Hupdate.
  assert (Hrun := onboard_updated session body w s1 Hvalid Hupdate).
  cbv zeta in Hrun. fold sa data update w1 in Hrun. fold run bypass in Hrun.
  assert (Hbypass : bypass = true →
                    run = (Returned (redirect "/"), w1) ∧ new_events w run.2 = [ update ]).
  { intros Hskip. rewrite Hskip in Hrun. rewrite Hrun. split; [ done |].
    apply new_events_app. }
  assert (Hunset : bypass = false → CONNECT_ONBOARDING_REDIRECT_URL = None →
                   run = (Thrown (Error "CONNECT_ONBOARDING_REDIRECT_URL is not set"), w1)).
  { intros Hskip Hbase. rewrite Hskip in Hrun.
    by rewrite (createAccountOnboardingUrl_unset _ w1 Hbase) in Hrun. }
  assert (Hlink : bypass = false →
                  ∀ base, CONNECT_ONBOARDING_REDIRECT_URL = Some base →
                    let params := accountLinkParams base (stripeAccount_json sa) in
                    let link := accountLinks_create params s1 in
                    run = (match link.1 with
                           | Returned url => Returned (redirect url)
                           | Thrown e => Thrown e
                           end,
                           mkWorld (users w) link.2
                             (log w ++ [ update; AccountLinksCreate params (returned link.1) ]))).
  { intros Hskip base Hbase params link. rewrite Hskip in Hrun.
    rewrite (createAccountOnboardingUrl_set _ w1 base Hbase) in Hrun.
    cbv zeta in Hrun. simpl in Hrun. fold params in Hrun. fold link in Hrun.
    rewrite <- app_assoc in Hrun. simpl in Hrun.
    rewrite Hrun. by destruct (link.1). }
  split; [ exact Hbypass |].
  split.
  { intros Hskip. split; [ by apply Hunset |].
    intros base Hbase params link.
    pose proof (Hlink Hskip base Hbase) as Hl. cbv zeta in Hl. fold params link in Hl.
    split; [ exact Hl |]. rewrite Hl. split; [ apply new_events_app |].
    by intros url ->. }
  split.
  - split.
    + intros Hres. destruct bypass eqn:Hskip; [ by left | right ].
      split; [ done |].
      destruct CONNECT_ONBOARDING_REDIRECT_URL as [base|] eqn:Hbase.
      * exists base. split; [ done |].
        pose proof (Hlink eq_refl base eq_refl) as Hl. cbv zeta in Hl.
        rewrite Hl in Hres. simpl in Hres.
        destruct (accountLinks_create _ s1).1 as [url|e]; [| discriminate ].
        apply redirect_url_inj in Hres. by rewrite Hres.
      * rewrite (Hunset eq_refl eq_refl) in Hres. discriminate.
    + intros [Hskip | (Hskip & base & Hbase & Hurl)].
      * by rewrite (proj1 (Hbypass Hskip)).
      * pose proof (Hlink Hskip base Hbase) as Hl. cbv zeta in Hl.
        rewrite Hl. simpl. by rewrite Hurl.
  - split.
    + intros [Hres Hnolink]. destruct bypass eqn:Hskip; [ done |].
      exfalso. destruct CONNECT_ONBOARDING_REDIRECT_URL as [base|] eqn:Hbase.
      * pose proof (Hlink eq_refl base eq_refl) as Hl. cbv zeta in Hl.
        eapply Hnolink. rewrite Hl. simpl. rewrite new_events_app. right. left.
      * rewrite (Hunset eq_refl eq_refl) in Hres. discriminate.
    + intros Hskip. destruct (Hbypass Hskip) as [Hr Hev]. split.
      * by rewrite Hr.
      * intros params res Hin. rewrite Hev in Hin.
        apply list_elem_of_singleton in Hin. discriminate.
Qed.

End Onboard.

(* ===================================================================== *)
(** ** The theorems at work on the sample setting *)
(* ===================================================================== *)

Lemma hasOutstandingRequirements_iff_witness :
  let g := Sample.gateway (Some (Sample.account_due (Some [ "external_account"; "individual.dob.day" ]))) in
  let w := Sample.world_with_alice in
  ∃ result : bool,
    @hasOutstandingRequirements _ g "acct_0" w
    = (Returned result, mkWorld (users w) (stripe w) (log w ++ [ AccountsRetrieve "acct_0" ]))
    ∧ result = true.
Proof.
  intros g w.
  destruct (@hasOutstandingRequirements_iff _ g "acct_0" w
              (Some (Sample.account_due (Some [ "external_account"; "individual.dob.day" ])))
              eq_refl)
    as (result & Hrun & _ & _ & Hother).
  exists result. split; [ exact Hrun |].
  apply Hother. exists "individual.dob.day". split; [ right; left | discriminate ].
Defined.

Lemma hasOutstandingRequirements_absent_witness :
  let g := Sample.gateway (Some Sample.account_bare) in
  let w := Sample.world_with_alice in
  Account.requirements Sample.account_bare = None
  ∧ @hasOutstandingRequirements _ g "acct_0" w
    = (Returned false, mkWorld (users w) (stripe w) (log w ++ [ AccountsRetrieve "acct_0" ])).
Proof.
  intros g w. split; [ reflexivity |].
  apply (@hasOutstandingRequirements_absent _ g "acct_0" w (Some Sample.account_bare)).
  - reflexivity.
  - right; left. exists Sample.account_bare. split; reflexivity.
Defined.

Lemma createAccountOnboardingUrl_config_witness :
  let g := Sample.gateway None in
  let w := Sample.world_with_alice in
  @createAccountOnboardingUrl _ g (Sample.config true None) (JStr "acct_0") w
  = (Thrown (Error "CONNECT_ONBOARDING_REDIRECT_URL is not set"), w)
  ∧ (@createAccountOnboardingUrl _ g (Sample.config true (Some "https://app.example"))
       (JStr "acct_0") w).1
    = Returned "https://connect.example/setup/s/1".
Proof.
  intros g w. split.
  - apply (proj1 (@createAccountOnboardingUrl_config _ g (Sample.config true None)
                    (JStr "acct_0") w)).
    reflexivity.
  - apply (proj2 (@createAccountOnboardingUrl_config _ g
                    (Sample.config true (Some "https://app.example")) (JStr "acct_0") w)
             "https://app.example" eq_refl).
    reflexivity.
Defined.

Lemma register_creates_account_then_user_witness :
  let g := Sample.gateway None in
  let cfg := Sample.config false None in
  let w := Sample.world_with_alice in
  let row := User.mk "bob@example.com" "$2b$10$1dr0wssaP" "acct_1" "US" in
  @register_errors Sample.libraries cfg Sample.bob = []
  ∧ ("bob@example.com" ∉ User.email <$> users w)
  ∧ @register _ g Sample.libraries cfg Sample.database Sample.bob w
    = (Returned (Response.mk 200 (apiResponse true None None)),
       mkWorld [ Sample.alice; row ] []
         [ AccountsCreate "US" (@accountCreateParams cfg (Some "bob@example.com") (Some "US"))
             (Some "acct_1");
           UserCreate row ]).
Proof.
  intros g cfg w row.
  assert (Hvalid : @register_errors Sample.libraries cfg Sample.bob = [])
    by (vm_compute; reflexivity).
  assert (Hfresh : ∀ e, RegisterBody.email Sample.bob = Some e → e ∉ User.email <$> users w).
  { intros e [= <-]. simpl. intros Hin. apply list_elem_of_singleton in Hin. discriminate. }
  split; [ exact Hvalid |]. split; [ apply Hfresh; reflexivity |].
  destruct (proj1 (@register_creates_account_then_user _ g Sample.libraries cfg Sample.database Sample.bob w)
              Hvalid Hfresh) as (e & p & c & Hbody & Hrun).
  injection Hbody as <- <- <-. cbv zeta in Hrun. simpl in Hrun.
  exact (proj1 Hrun).
Defined.

Lemma register_existing_account_witness :
  let g := Sample.gateway None in
  let cfg := Sample.config false None in
  let w := Sample.world_with_alice in
  let body := RegisterBody.mk (Some "alice@example.com") (Some "Passw0rd1") (Some "US") in
  ("alice@example.com" ∈ User.email <$> users w)
  ∧ ∃ message,
      @register _ g Sample.libraries cfg Sample.database body w
      = (Returned (Response.mk 400 (apiResponse false None (Some message))), w).
Proof.
  intros g cfg w body.
  assert (Hin : "alice@example.com" ∈ User.email <$> users w) by (simpl; left).
  split; [ exact Hin |].
  destruct (@register_existing_account _ g Sample.libraries cfg Sample.database body w "alice@example.com"
              eq_refl Hin) as (message & Hrun & _).
  exists message. exact Hrun.
Defined.

Lemma register_create_request_witness :
  let g := Sample.gateway None in
  let cfg := Sample.config true None in
  let w := Sample.world_with_alice in
  let params := @accountCreateParams cfg (Some "bob@example.com") (Some "US") in
  AccountsCreate "US" params (Some "acct_1")
    ∈ new_events w (@register _ g Sample.libraries cfg Sample.database Sample.bob w).2
  ∧ params !! "type" = Some (JStr "custom")
  ∧ params !! "business_type" = Some (JStr "individual").
Proof.
  intros g cfg w params.
  assert (Hev : AccountsCreate "US" params (Some "acct_1")
                  ∈ new_events w (@register _ g Sample.libraries cfg Sample.database Sample.bob w).2).
  { assert (Hnew : new_events w (@register _ g Sample.libraries cfg Sample.database Sample.bob w).2
                   = [ AccountsCreate "US" params (Some "acct_1");
                       UserCreate (User.mk "bob@example.com" "$2b$10$1dr0wssaP" "acct_1" "US") ])
      by (vm_compute; reflexivity).
    rewrite Hnew. left. }
  split; [ exact Hev |].
  destruct (@register_create_request _ g Sample.libraries cfg Sample.database Sample.bob w "US" params
              (Some "acct_1") Hev)
    as (e & c & caps & _ & _ & Htype & _ & _ & _ & _ & _ & _ & Hdemo & _).
  split; [ exact Htype |]. exact (proj1 (Hdemo eq_refl)).
Defined.

(** C9 as stated fails: the answer to the password "abcdefgh" carries the
    count of the failures and neither of their messages.  [String.index 0 m
    s] is the place of [m] in [s], if it occurs. *)
Lemma register_validation_counterexample :
  let g := Sample.gateway None in
  let cfg := Sample.config false None in
  let w := Sample.world_with_alice in
  let body := RegisterBody.mk (Some "bob@example.com") (Some "abcdefgh") (Some "US") in
  ¬ (∃ message,
       (@register _ g Sample.libraries cfg Sample.database body w).1
       = Returned (Response.mk 400 (apiResponse false None (Some message)))
       ∧ String.index 0 "Your password must have at least 1 digit character" message ≠ None
       ∧ String.index 0 "Your password must have at least 1 uppercase character" message
         ≠ None).
Proof.
  intros g cfg w body (message & Hrun & Hdigit & _).
  assert (Hreal : (@register _ g Sample.libraries cfg Sample.database body w).1
                  = Returned (Response.mk 400
                      (apiResponse false None (Some "2 errors occurred"))))
    by (vm_compute; reflexivity).
  rewrite Hreal in Hrun. injection Hrun as <-.
  apply Hdigit. vm_compute. reflexivity.
Qed.

Lemma register_validation_message_witness :
  let g := Sample.gateway None in
  let cfg := Sample.config false None in
  let w := Sample.world_with_alice in
  let body := RegisterBody.mk (Some "bob@example.com") (Some "abcdefgh") (Some "US") in
  (∀ errors, @error_message Sample.libraries errors = Yup.ValidationError_message errors)
  ∧ "Your password must have at least 1 digit character"
      ∈ @register_errors Sample.libraries cfg body
  ∧ "Your password must have at least 1 uppercase character"
      ∈ @register_errors Sample.libraries cfg body
  ∧ @register _ g Sample.libraries cfg Sample.database body w
    = (Returned (Response.mk 400 (apiResponse false None (Some "2 errors occurred"))), w).
Proof.
  intros g cfg w body.
  assert (Hyup : ∀ errors,
            @error_message Sample.libraries errors = Yup.ValidationError_message errors)
    by reflexivity.
  split; [ exact Hyup |].
  destruct (@register_validation_message _ g Sample.libraries cfg Sample.database body w Hyup)
    as (_ & _ & _ & _ & _ & Habc).
  destruct (Habc eq_refl) as (Hdigit & Hupper & _ & Hrun).
  split; [ exact Hdigit |]. split; [ exact Hupper |].
  apply Hrun; reflexivity.
Defined.

(** C4 as stated fails: in demo mode, with skipOnboarding absent, the
    payload of an account on Expense Management carries the acceptance
    record in its card-issuing settings. *)
Lemma onboardingData_tos_counterexample :
  let cfg := Sample.config true None in
  let body := OnboardBody.mk "Acme Inc" None in
  let data := JObj (@onboardingData cfg (Sample.session "US" ExpenseManagement) body) in
  ¬ (@isDemoMode cfg = true →
     truthy (OnboardBody.skipOnboarding body) = false →
     get_path [ "tos_acceptance" ] data = None
     ∧ get_path [ "settings"; "card_issuing"; "tos_acceptance" ] data = None
     ∧ get_path [ "settings"; "treasury"; "tos_acceptance" ] data = None).
Proof.
  intros cfg body data Hclaim.
  destruct (Hclaim eq_refl eq_refl) as (_ & Hcard & _).
  vm_compute in Hcard. discriminate.
Qed.

Lemma onboardingData_tos_witness :
  let cfg := Sample.config true None in
  let data := JObj (@onboardingData cfg (Sample.session "US" EmbeddedFinance)
                      (OnboardBody.mk "Acme Inc" (Some false))) in
  @isDemoMode cfg = true
  ∧ get_path [ "tos_acceptance" ] data = None
  ∧ get_path [ "settings"; "card_issuing"; "tos_acceptance" ] data = Some (@TOS_ACCEPTANCE cfg)
  ∧ get_path [ "settings"; "treasury"; "tos_acceptance" ] data = Some (@TOS_ACCEPTANCE cfg).
Proof.
  intros cfg data. split; [ reflexivity |].
  exact (@onboardingData_tos cfg (Sample.session "US" EmbeddedFinance)
           (OnboardBody.mk "Acme Inc" (Some false)) eq_refl).
Defined.

Lemma onboardingData_profile_witness :
  let cfg := Sample.config true None in
  let data := JObj (@onboardingData cfg (Sample.session "GB" ExpenseManagement)
                      (OnboardBody.mk "Acme Inc" None)) in
  get_path [ "business_profile"; "name" ] data = Some (JStr "Acme Inc")
  ∧ get_path [ "individual"; "address" ] data
    = Some (JObj (obj [ Field "line1" (JStr "address_full_match");
                        Field "city" (JStr "London");
                        Field "postal_code" (JStr "WC32 4AP");
                        Field "country" (JStr "GB") ])).
Proof.
  intros cfg data.
  destruct (@onboardingData_profile cfg (Sample.session "GB" ExpenseManagement)
              (OnboardBody.mk "Acme Inc" None)) as (Hname & Hdemo & _).
  split; [ exact Hname |].
  destruct (Hdemo eq_refl) as (_ & _ & _ & _ & _ & HGB & _).
  exact (HGB eq_refl).
Defined.

Lemma onboard_redirect_witness :
  let g := Sample.gateway None in
  let cfg := Sample.config true (Some "https://app.example") in
  let w := Sample.world_with_alice in
  let session := Sample.session "US" ExpenseManagement in
  let body := OnboardBody.mk "Acme Inc" (Some true) in
  @business_withOnbardingSkip cfg body = []
  ∧ (@onboard _ g Sample.libraries cfg session body w).1
    = Returned (Response.mk 200
        (apiResponse true (Some (obj [ Field "redirectUrl" (JStr "/") ])) None))
  ∧ new_events w (@onboard _ g Sample.libraries cfg session body w).2
    = [ AccountsUpdate "US" "acct_0" (@onboardingData cfg session body) true ].
Proof.
  intros g cfg w session body. split; [ reflexivity |].
  destruct (@onboard_redirect _ g Sample.libraries cfg session body w [ "acct_1" ]
              eq_refl eq_refl) as (Hbypass & _ & _).
  destruct (Hbypass eq_refl) as [Hrun Hev].
  split; [ by rewrite Hrun | exact Hev ].
Defined.

(* ===================================================================== *)
(** ** The form's schema, src/src/pages/auth/register.tsx *)
(* ===================================================================== *)

(** A character class is found exactly when one of the characters is in it. *)
Lemma search_class_spec (lo hi : ascii) (s : string) :
  search_class lo hi s = true
  ↔ ∃ c, c ∈ list_ascii_of_string s ∧ in_class lo hi c = true.
Proof.
  induction s as [|c s IH]; simpl.
  - split; [ discriminate | intros (c & Hin & _); by apply not_elem_of_nil in Hin ].
  - rewrite orb_true_iff, IH. split.
    + intros [Hc | (c' & Hin & Hc')].
      * exists c. split; [ left | done ].
      * exists c'. split; [ by right | done ].
    + intros (c' & Hin & Hc'). apply elem_of_cons in Hin as [-> | Hin]; eauto.
Qed.

Lemma eqb_empty_js_length (s : string) : String.eqb s "" = true → js_length s = 0.
Proof. by destruct s. Qed.

(** The failures of a list of tests, one test at a time. *)
Lemma failures_cons (t : Test) (tests : list Test) (v : option string) :
  failures (t :: tests) v
  = if test_ok t v then failures tests v else test_message t :: failures tests v.
Proof.
  unfold failures. rewrite filter_cons.
  destruct (test_ok t v); case_decide; done.
Qed.

(** X1. A password passes the form's schema exactly when its length, in
    UTF-16 code units as JavaScript counts it, is 8 to 255 and it has,
    somewhere, a digit, a lowercase letter and an uppercase letter. *)
Theorem password_accepted_iff (p : string) :
  failures password_tests (Some p) = []
  ↔ (8 ≤ js_length p ≤ 255)%nat
    ∧ (∃ c, c ∈ list_ascii_of_string p ∧ in_class "0" "9" c = true)
    ∧ (∃ c, c ∈ list_ascii_of_string p ∧ in_class "a" "z" c = true)
    ∧ (∃ c, c ∈ list_ascii_of_string p ∧ in_class "A" "Z" c = true).
Proof.
  rewrite <- !search_class_spec. unfold password_tests.
  rewrite !failures_cons. cbn [test_ok Yup.test_ok Yup.max Yup.min Yup.required Yup.matches].
  destruct (Nat.leb_spec (js_length p) 255) as [Hmax|Hmax];
    destruct (String.eqb p "") eqn:Hempty;
    destruct (Nat.leb_spec 8 (js_length p)) as [Hmin|Hmin];
    destruct (search_class "0" "9" p) eqn:Hd;
    destruct (search_class "a" "z" p) eqn:Hl;
    destruct (search_class "A" "Z" p) eqn:Hu;
    cbn [negb];
    try apply eqb_empty_js_length in Hempty;
    (split; [ intros Hnil; try discriminate Hnil; try lia; repeat split; (done || lia)
            | intros ([? ?] & ? & ? & ?); try done; try lia ]).
Qed.

Lemma fmap_NoDup_inj {A B : Type} (f : A → B) (l : list A) (x y : A) :
  NoDup (f <$> l) → x ∈ l → y ∈ l → f x = f y → x = y.
Proof.
  induction l as [|a l IH]; [ by intros _ Hx; apply not_elem_of_nil in Hx |].
  rewrite fmap_cons, NoDup_cons. intros [Ha Hl] Hx Hy Hxy.
  apply elem_of_cons in Hx as [-> | Hx]; apply elem_of_cons in Hy as [-> | Hy].
  - done.
  - exfalso. apply Ha. rewrite Hxy. by apply list_elem_of_fmap_2.
  - exfalso. apply Ha. rewrite <- Hxy. by apply list_elem_of_fmap_2.
  - by apply IH.
Qed.

(** With messages that tell the tests apart, a message is reported exactly
    when its own test fails. *)
Lemma failures_message_iff (tests : list Test) (v : option string) (t : Test) :
  NoDup (test_message <$> tests) → t ∈ tests →
  test_message t ∈ failures tests v ↔ test_ok t v = false.
Proof.
  intros Hnodup Hin. rewrite elem_of_failures. split.
  - intros (t' & Hin' & Hfail & Hmsg).
    by rewrite <- (fmap_NoDup_inj test_message tests t' t Hnodup Hin' Hin Hmsg).
  - intros Hfail. exists t. done.
Qed.

Ltac in_list := first [ left | right; in_list ].

Lemma password_messages_distinct : NoDup (test_message <$> password_tests).
Proof. apply (bool_decide_unpack _). vm_compute. exact I. Qed.

(** X2. Each password message is reported for its own reason and for no
    other: the digit, lowercase and uppercase messages when the class is
    missing, the length messages when the password has fewer than 8 or more
    than 255 UTF-16 code units, and "Password is required" when it is
    empty. *)
Theorem password_messages (p : string) :
  let errors := failures password_tests (Some p) in
  (getCharacterValidationError "digit" ∈ errors ↔ search_class "0" "9" p = false)
  ∧ (getCharacterValidationError "lowercase" ∈ errors ↔ search_class "a" "z" p = false)
  ∧ (getCharacterValidationError "uppercase" ∈ errors ↔ search_class "A" "Z" p = false)
  ∧ ("Password must have at least 8 characters" ∈ errors ↔ (js_length p < 8)%nat)
  ∧ ("password must be at most 255 characters" ∈ errors ↔ (255 < js_length p)%nat)
  ∧ ("Password is required" ∈ errors ↔ p = "").
Proof.
  cbv zeta.
  pose proof (λ t, failures_message_iff password_tests (Some p) t password_messages_distinct)
    as Hiff.
  repeat split.
  - apply (Hiff (Yup.matches (search_class "0" "9") (getCharacterValidationError "digit"))).
    in_list.
  - apply (Hiff (Yup.matches (search_class "0" "9") (getCharacterValidationError "digit"))).
    in_list.
  - apply (Hiff (Yup.matches (search_class "a" "z") (getCharacterValidationError "lowercase"))).
    in_list.
  - apply (Hiff (Yup.matches (search_class "a" "z") (getCharacterValidationError "lowercase"))).
    in_list.
  - apply (Hiff (Yup.matches (search_class "A" "Z") (getCharacterValidationError "uppercase"))).
    in_list.
  - apply (Hiff (Yup.matches (search_class "A" "Z") (getCharacterValidationError "uppercase"))).
    in_list.
  - intros Hin.
    apply (Hiff (Yup.min 8 "Password must have at least 8 characters")) in Hin;
      [| in_list ].
    by apply Nat.leb_gt in Hin.
  - intros Hlt.
    apply (Hiff (Yup.min 8 "Password must have at least 8 characters"));
      [ in_list |].
    by apply Nat.leb_gt.
  - intros Hin.
    apply (Hiff (Yup.max 255 "password must be at most 255 characters")) in Hin;
      [| in_list ].
    by apply Nat.leb_gt in Hin.
  - intros Hlt.
    apply (Hiff (Yup.max 255 "password must be at most 255 characters"));
      [ in_list |].
    by apply Nat.leb_gt.
  - intros Hin.
    apply (Hiff (Yup.required "Password is required")) in Hin;
      [| in_list ].
    simpl in Hin. apply negb_false_iff in Hin. by apply String.eqb_eq in Hin.
  - intros ->.
    by apply (Hiff (Yup.required "Password is required"));
      [ in_list |].
Qed.

Section FormSchema.

Context `{!Libraries}.

Lemma email_messages_distinct : NoDup (test_message <$> email_tests).
Proof. apply (bool_decide_unpack _). vm_compute. exact I. Qed.

(** X3. The e-mail messages of the form's schema: "Email is required" for
    an absent or empty value; "Must be a valid email" only for a non-empty
    value the pattern rejects, so never together with the former; the
    length message for more than 255 UTF-16 code units. *)
Theorem email_messages (v : option string) :
  let errors := failures email_tests v in
  ("Email is required" ∈ errors ↔ v = None ∨ v = Some "")
  ∧ ("Must be a valid email" ∈ errors ↔ ∃ s, v = Some s ∧ s ≠ "" ∧ email_regex s = false)
  ∧ ("email must be at most 255 characters" ∈ errors
     ↔ ∃ s, v = Some s ∧ (255 < js_length s)%nat).
Proof.
  cbv zeta.
  pose proof (λ t, failures_message_iff email_tests v t email_messages_distinct) as Hiff.
  split; [| split ].
  - rewrite (Hiff (Yup.required "Email is required")) by in_list. simpl.
    destruct v as [s|]; [| split; auto ].
    rewrite negb_false_iff, String.eqb_eq. split.
    + intros ->. by right.
    + intros [? | [= ->]]; done.
  - rewrite (Hiff (Yup.email_test email_regex "Must be a valid email")) by in_list. simpl.
    destruct v as [s|]; [| split; [ done | by intros (? & ? & _) ] ].
    rewrite orb_false_iff, String.eqb_neq. split.
    + intros [? ?]. eauto.
    + intros (s' & [= <-] & ? & ?). done.
  - rewrite (Hiff (Yup.max 255 "email must be at most 255 characters")) by in_list. simpl.
    destruct v as [s|]; [| split; [ done | by intros (? & ? & _) ] ].
    rewrite Nat.leb_gt. split; [ eauto |]. by intros (s' & [= <-] & ?).
Qed.

(** X4. A submission with neither an e-mail nor a password gets exactly the
    two "required" messages, e-mail first: the other tests let an absent
    value pass. *)
Theorem form_missing_fields (record : gmap string string) :
  record !! "email" = None → record !! "password" = None →
  validate_all validationSchema record = [ "Email is required"; "Password is required" ].
Proof.
  intros He Hp. unfold validate_all, validationSchema. simpl. rewrite He, Hp. reflexivity.
Qed.

End FormSchema.

(* ===================================================================== *)
(** ** More on the registration handler *)
(* ===================================================================== *)

Section RegisterMore.

Context {Stripe : Type} `{!Gateway Stripe} `{!Libraries} `{!Config} `{!Database}.

Implicit Types (w : World Stripe) (body : RegisterBody.t).

(** X5. Whatever the body, an answer of the handler is either a 400 failure
    envelope with the world exactly as it was, or the 200 success envelope
    with exactly one row appended, for the body's e-mail. *)
Theorem register_response body w r :
  (register body w).1 = Returned r →
  (Response.status r = 400%Z ∧ ApiResponse.success (Response.json r) = false
   ∧ (register body w).2 = w)
  ∨ (r = Response.mk 200 (apiResponse true None None)
     ∧ ∃ row, users (register body w).2 = users w ++ [ row ]
              ∧ RegisterBody.email body = Some (User.email row)).
Proof.
  destruct (register_errors body) as [|m l] eqn:Herr.
  - destruct (valid_body_fields body Herr) as (e & p & c & ->).
    destruct (decide (e ∈ User.email <$> users w)) as [Hin|Hfresh].
    + rewrite (register_duplicate _ w e Herr eq_refl Hin). intros [= <-]. by left.
    + rewrite (register_fresh w e p c Herr Hfresh). cbv zeta.
      destruct (accounts_create _ _ _) as [[account|err] s']; [| discriminate ].
      destruct (user_create_error _ _) as [err|]; [ discriminate |].
      intros [= <-]. right. split; [ done |]. eexists. split; reflexivity.
  - rewrite register_invalid by (by rewrite Herr). intros [= <-]. by left.
Qed.

(** X6. After a registration that was answered 200, the provider had
    returned an account, looking the e-mail up finds the new row with that
    account's id, and registering that e-mail again, with any valid body,
    is answered 400 "Account already exists" and changes nothing: no second
    provider account, no second row. *)
Theorem register_twice body w :
  let w1 := (register body w).2 in
  (register body w).1 = Returned (Response.mk 200 (apiResponse true None None)) →
  ∃ e p c account s',
    body = RegisterBody.mk (Some e) (Some p) (Some c)
    ∧ accounts_create (getPlatform (Some c)) (accountCreateParams (Some e) (Some c)) (stripe w)
      = (Returned account, s')
    ∧ prisma_user_findFirst (Some e) w1
      = (Returned (Some (User.mk e (bcrypt_hash p 10) (Account.id account) c)), w1)
    ∧ ∀ body2, RegisterBody.email body2 = Some e → register_errors body2 = [] →
        register body2 w1
        = (Returned (Response.mk 400
             (apiResponse false None (Some "Account already exists"))), w1).
Proof.
  intros w1. subst w1.
  destruct (register_errors body) as [|m l] eqn:Herr;
    [| rewrite register_invalid by (by rewrite Herr); discriminate ].
  destruct (valid_body_fields body Herr) as (e & p & c & ->).
  destruct (decide (e ∈ User.email <$> users w)) as [Hin|Hfresh];
    [ rewrite (register_duplicate _ w e Herr eq_refl Hin); discriminate |].
  rewrite (register_fresh w e p c Herr Hfresh). cbv zeta.
  destruct (accounts_create _ _ _) as [[account|err] s'] eqn:Hcreate; [| discriminate ].
  destruct (user_create_error _ _) as [err|]; [ discriminate |].
  intros _. exists e, p, c, account, s'. simpl.
  split; [ done |]. split; [ done |]. split.
  - unfold prisma_user_findFirst. simpl.
    rewrite filter_app, (filter_email_fresh e (users w) Hfresh), filter_cons. simpl.
    by case_decide.
  - intros body2 He2 Hvalid2. apply (register_duplicate body2 _ e Hvalid2 He2).
    simpl. rewrite fmap_app. apply elem_of_app. right. simpl. left.
Qed.

Lemma nothing_new {A : Type} (l : list A) : ∃ new, l = l ++ new ∧ (length new ≤ 1)%nat.
Proof. exists []. rewrite app_nil_r. split; [ done | simpl; lia ]. Qed.

(** X7. The handler keeps every row there was, adds at most one, and keeps
    the e-mails of the table pairwise distinct. *)
Theorem register_keeps_table body w :
  let w' := (register body w).2 in
  (∃ new, users w' = users w ++ new ∧ (length new ≤ 1)%nat)
  ∧ (NoDup (User.email <$> users w) → NoDup (User.email <$> users w')).
Proof.
  cbv zeta.
  destruct (register_errors body) as [|m l] eqn:Herr.
  - destruct (valid_body_fields body Herr) as (e & p & c & ->).
    destruct (decide (e ∈ User.email <$> users w)) as [Hin|Hfresh].
    + rewrite (register_duplicate _ w e Herr eq_refl Hin). simpl.
      split; [ apply nothing_new | done ].
    + rewrite (register_fresh w e p c Herr Hfresh). cbv zeta.
      destruct (accounts_create _ _ _) as [[account|err] s']; simpl.
      * destruct (user_create_error _ _) as [err|]; simpl;
          [ split; [ apply nothing_new | done ] |].
        split; [ eexists; split; [ reflexivity | simpl; lia ] |].
        intros Hnodup. rewrite fmap_app. apply NoDup_app. split; [ done |].
        split; [| apply NoDup_singleton ].
        intros x Hx Hx'. simpl in Hx'. apply list_elem_of_singleton in Hx'. by subst.
      * split; [ apply nothing_new | done ].
  - rewrite register_invalid by (by rewrite Herr). simpl.
    split; [ apply nothing_new | done ].
Qed.

End RegisterMore.

(* ===================================================================== *)
(** ** More on the onboarding handler *)
(* ===================================================================== *)

Section OnboardMore.

Context {Stripe : Type} `{!Gateway Stripe} `{!Libraries} `{!Config}.

Implicit Types (w : World Stripe) (session : Session.t) (body : OnboardBody.t).

Lemma onboard_rejected session body w :
  let errors := (if isDemoMode then business_withOnbardingSkip else business_default) body in
  errors ≠ [] →
  onboard session body w
  = (Returned (Response.mk 400 (apiResponse false None (Some (error_message errors)))), w).
Proof.
  intros errors Hne. unfold onboard. fold errors.
  destruct errors as [|m l]; [ done | reflexivity ].
Qed.

Lemma onboard_update_thrown session body w e s1 :
  let sa := Session.stripeAccount session in
  let data := onboardingData session body in
  (if isDemoMode then business_withOnbardingSkip else business_default) body = [] →
  accounts_update (StripeAccount.platform sa) (StripeAccount.accountId sa) data (stripe w)
  = (Thrown e, s1) →
  onboard session body w
  = (Thrown e,
     mkWorld (users w) s1
       (log w ++ [ AccountsUpdate (StripeAccount.platform sa) (StripeAccount.accountId sa)
                     data false ])).
Proof.
  intros sa data Hvalid Hupdate. unfold onboard. rewrite Hvalid. simpl.
  unfold bind, stripe_accounts_update. fold sa. fold data. by rewrite Hupdate.
Qed.

(** X8. A body the selected schema rejects (the skip variant in demo mode,
    the default one otherwise) is answered 400 with the message of the
    aggregated error; the provider is not called and the world is as it
    was. *)
Theorem onboard_validation_failure session body w :
  let errors := (if isDemoMode then business_withOnbardingSkip else business_default) body in
  errors ≠ [] →
  onboard session body w
  = (Returned (Response.mk 400 (apiResponse false None (Some (error_message errors)))), w)
  ∧ new_events w (onboard session body w).2 = [].
Proof.
  intros errors Hne. rewrite (onboard_rejected session body w Hne).
  split; [ done | apply new_events_same ].
Qed.

(** X9. When the provider refuses the account update the handler throws the
    provider's error: no response is sent and no onboarding link is
    requested; the failed update is the only call. *)
Theorem onboard_update_failure session body w e s1 :
  let sa := Session.stripeAccount session in
  let data := onboardingData session body in
  (if isDemoMode then business_withOnbardingSkip else business_default) body = [] →
  accounts_update (StripeAccount.platform sa) (StripeAccount.accountId sa) data (stripe w)
  = (Thrown e, s1) →
  (onboard session body w).1 = Thrown e
  ∧ users (onboard session body w).2 = users w
  ∧ new_events w (onboard session body w).2
    = [ AccountsUpdate (StripeAccount.platform sa) (StripeAccount.accountId sa) data false ].
Proof.
  intros sa data Hvalid Hupdate.
  rewrite (onboard_update_thrown session body w e s1 Hvalid Hupdate).
  split; [ done |]. split; [ done | apply new_events_app ].
Qed.

(** X10. A missing base redirect URL is only noticed after the account has
    been updated: outside the bypass the handler throws the configuration
    error, with the accepted update already made and no link requested. *)
Theorem onboard_config_missing session body w s1 :
  let sa := Session.stripeAccount session in
  let data := onboardingData session body in
  (if isDemoMode then business_withOnbardingSkip else business_default) body = [] →
  accounts_update (StripeAccount.platform sa) (StripeAccount.accountId sa) data (stripe w)
  = (Returned (), s1) →
  isDemoMode && truthy (OnboardBody.skipOnboarding body) = false →
  CONNECT_ONBOARDING_REDIRECT_URL = None →
  onboard session body w
  = (Thrown (Error "CONNECT_ONBOARDING_REDIRECT_URL is not set"),
     mkWorld (users w) s1
       (log w ++ [ AccountsUpdate (StripeAccount.platform sa) (StripeAccount.accountId sa)
                     data true ])).
Proof.
  intros sa data Hvalid Hupdate Hskip Hunset.
  rewrite (onboard_updated session body w s1 Hvalid Hupdate), Hskip.
  by rewrite createAccountOnboardingUrl_unset.
Qed.


End OnboardMore.

Section PayloadMore.

Context `{!Config}.

Implicit Types (session : Session.t) (body : OnboardBody.t).

(** X12. The top-level fields of the update payload: outside demo mode
    business_profile alone, holding nothing but the name, so nothing of the
    session and no acceptance record is sent; in demo mode business_type,
    business_profile, company, individual and settings, plus tos_acceptance
    exactly when skipOnboarding is truthy. *)
Theorem onboardingData_keys session body :
  let data := onboardingData session body in
  (isDemoMode = false →
     data = {[ "business_profile"
               := JObj {[ "name" := JStr (OnboardBody.businessName body) ]} ]})
  ∧ (isDemoMode = true →
       dom data
       = {[ "business_type"; "business_profile"; "company"; "individual"; "settings" ]}
         ∪ (if truthy (OnboardBody.skipOnboarding body) then {[ "tos_acceptance" ]} else ∅)).
Proof.
  cbv zeta. split; intros Hdemo.
  - by rewrite (onboardingData_plain _ _ Hdemo).
  - unfold onboardingData. rewrite Hdemo.
    destruct (truthy (OnboardBody.skipOnboarding body));
      cbn [obj foldl add_entry and_obj];
      repeat first [ rewrite dom_union_L | rewrite dom_insert_L | rewrite dom_empty_L ];
      set_solver.
Qed.

(** X13. The fixed part of the synthetic profile sent in demo mode: the
    business type, the merchant category code, product description and
    URL, the company named after the business with the test tax id, and
    the individual's name and phone number. *)
Theorem onboardingData_demo_profile session body :
  isDemoMode = true →
  let data := JObj (onboardingData session body) in
  get_path [ "business_type" ] data = Some (JStr "individual")
  ∧ get_path [ "business_profile" ] data
    = Some (JObj (obj [ Field "name" (JStr (OnboardBody.businessName body));
                        Field "mcc" (JStr "5734");
                        Field "product_description" (JStr "Some demo product");
                        Field "url" (JStr "https://some-company.com") ]))
  ∧ get_path [ "company" ] data
    = Some (JObj (obj [ Field "name" (JStr (OnboardBody.businessName body));
                        Field "tax_id" (JStr "000000000") ]))
  ∧ get_path [ "individual"; "first_name" ] data = Some (JStr "John")
  ∧ get_path [ "individual"; "last_name" ] data = Some (JStr "Smith")
  ∧ get_path [ "individual"; "phone" ] data = Some (JStr "2015550123").
Proof.
  intros Hdemo.
  destruct session as [email [accountId platform] country [|]];
    destruct body as [businessName [[|]|]];
    payload_unfold; rewrite Hdemo; country_cases country;
    cbv zeta; repeat split; vm_compute; reflexivity.
Qed.

End PayloadMore.

(* ===================================================================== *)
(** ** More on src/unnamed/part_001 *)
(* ===================================================================== *)

Section HelpersMore.

Context {Stripe : Type} `{!Gateway Stripe} `{!Config}.

Implicit Types (w : World Stripe).

(** X14. With the base URL configured, the one request is an
    account_onboarding link for the account it was given, refreshing at the
    base followed by "/onboard" and returning to the base followed by "/",
    and it has no other field; the user table is not touched. *)
Theorem createAccountOnboardingUrl_request accountId w base :
  CONNECT_ONBOARDING_REDIRECT_URL = Some base →
  let w' := (createAccountOnboardingUrl accountId w).2 in
  users w' = users w
  ∧ ∃ params res,
      new_events w w' = [ AccountLinksCreate params res ]
      ∧ params !! "type" = Some (JStr "account_onboarding")
      ∧ params !! "account" = Some accountId
      ∧ params !! "refresh_url" = Some (JStr (base +:+ "/onboard"))
      ∧ params !! "return_url" = Some (JStr (base +:+ "/"))
      ∧ dom params = {[ "type"; "account"; "refresh_url"; "return_url" ]}.
Proof.
  intros Hbase w'. subst w'.
  rewrite (createAccountOnboardingUrl_set _ _ base Hbase). cbv zeta. simpl.
  split; [ done |]. eexists _, _. split; [ apply new_events_app |].
  do 4 (split; [ vm_compute; reflexivity |]).
  unfold accountLinkParams, obj. cbn [foldl add_entry].
  rewrite !dom_insert_L, dom_empty_L. set_solver.
Qed.

(** X15. When the retrieval fails the probe throws the provider's error: it
    does not answer [false]. *)
Theorem hasOutstandingRequirements_retrieve_failure accountId w e :
  accounts_retrieve accountId (stripe w) = Thrown e →
  hasOutstandingRequirements accountId w
  = (Thrown e, mkWorld (users w) (stripe w) (log w ++ [ AccountsRetrieve accountId ])).
Proof.
  intros Hret. unfold hasOutstandingRequirements, bind, stripe_accounts_retrieve.
  by rewrite Hret.
Qed.

End HelpersMore.

(* ===================================================================== *)
(** ** These theorems at work on the sample settings *)
(* ===================================================================== *)

Lemma form_missing_fields_witness :
  validate_all (@validationSchema Sample.libraries) ∅
  = [ "Email is required"; "Password is required" ].
Proof.
  apply (@form_missing_fields Sample.libraries ∅); reflexivity.
Defined.

Lemma register_response_witness :
  let g := Sample.gateway None in
  let cfg := Sample.config false None in
  let w := Sample.world_with_alice in
  let r := Response.mk 200 (apiResponse true None None) in
  (@register _ g Sample.libraries cfg Sample.database Sample.bob w).1 = Returned r
  ∧ ((Response.status r = 400%Z ∧ ApiResponse.success (Response.json r) = false
      ∧ (@register _ g Sample.libraries cfg Sample.database Sample.bob w).2 = w)
     ∨ (r = Response.mk 200 (apiResponse true None None)
        ∧ ∃ row, users (@register _ g Sample.libraries cfg Sample.database Sample.bob w).2 = users w ++ [ row ]
                 ∧ RegisterBody.email Sample.bob = Some (User.email row))).
Proof.
  intros g cfg w r.
  assert (Hrun : (@register _ g Sample.libraries cfg Sample.database Sample.bob w).1 = Returned r)
    by (vm_compute; reflexivity).
  split; [ exact Hrun |].
  exact (@register_response _ g Sample.libraries cfg Sample.database Sample.bob w r Hrun).
Defined.

Lemma register_twice_witness :
  let g := Sample.gateway None in
  let cfg := Sample.config false None in
  let w := Sample.world_with_alice in
  let w1 := (@register _ g Sample.libraries cfg Sample.database Sample.bob w).2 in
  (@register _ g Sample.libraries cfg Sample.database Sample.bob w).1
  = Returned (Response.mk 200 (apiResponse true None None))
  ∧ @register _ g Sample.libraries cfg Sample.database Sample.bob w1
    = (Returned (Response.mk 400 (apiResponse false None (Some "Account already exists"))), w1).
Proof.
  intros g cfg w w1.
  assert (Hrun : (@register _ g Sample.libraries cfg Sample.database Sample.bob w).1
                 = Returned (Response.mk 200 (apiResponse true None None)))
    by (vm_compute; reflexivity).
  split; [ exact Hrun |].
  destruct (@register_twice _ g Sample.libraries cfg Sample.database Sample.bob w Hrun)
    as (e & p & c & account & s' & Hbody & _ & _ & Hagain).
  injection Hbody as <- <- <-.
  apply Hagain; [ reflexivity | vm_compute; reflexivity ].
Defined.

Lemma onboard_validation_failure_witness :
  let g := Sample.gateway None in
  let cfg := Sample.config false None in
  let w := Sample.world_with_alice in
  let session := Sample.session "US" ExpenseManagement in
  let body := OnboardBody.mk "" (Some true) in
  @onboard _ g Sample.libraries cfg session body w
  = (Returned (Response.mk 400
       (apiResponse false None (Some "Business name is required"))), w)
  ∧ new_events w (@onboard _ g Sample.libraries cfg session body w).2 = [].
Proof.
  intros g cfg w session body.
  apply (@onboard_validation_failure _ g Sample.libraries cfg session body w).
  discriminate.
Defined.

Lemma onboard_update_failure_witness :
  let cfg := Sample.config true None in
  let w := Outage.world in
  let session := Sample.session "US" ExpenseManagement in
  let body := OnboardBody.mk "Acme Inc" (Some true) in
  (@onboard _ Outage.gateway Sample.libraries cfg session body w).1 = Thrown Outage.unavailable
  ∧ users (@onboard _ Outage.gateway Sample.libraries cfg session body w).2 = users w
  ∧ new_events w (@onboard _ Outage.gateway Sample.libraries cfg session body w).2
    = [ AccountsUpdate "US" "acct_0" (@onboardingData cfg session body) false ].
Proof.
  intros cfg w session body.
  exact (@onboard_update_failure _ Outage.gateway Sample.libraries cfg session body w
           Outage.unavailable () eq_refl eq_refl).
Defined.

Lemma onboard_config_missing_witness :
  let g := Sample.gateway None in
  let cfg := Sample.config false None in
  let w := Sample.world_with_alice in
  let session := Sample.session "US" ExpenseManagement in
  let body := OnboardBody.mk "Acme Inc" (Some true) in
  @onboard _ g Sample.libraries cfg session body w
  = (Thrown (Error "CONNECT_ONBOARDING_REDIRECT_URL is not set"),
     mkWorld (users w) [ "acct_1" ]
       (log w ++ [ AccountsUpdate "US" "acct_0" (@onboardingData cfg session body) true ])).
Proof.
  intros g cfg w session body.
  exact (@onboard_config_missing _ g Sample.libraries cfg session body w [ "acct_1" ]
           eq_refl eq_refl eq_refl eq_refl).
Defined.

Lemma onboardingData_demo_profile_witness :
  let cfg := Sample.config true None in
  let data := JObj (@onboardingData cfg (Sample.session "FR" ExpenseManagement)
                      (OnboardBody.mk "Acme Inc" None)) in
  get_path [ "business_type" ] data = Some (JStr "individual")
  ∧ get_path [ "company" ] data
    = Some (JObj (obj [ Field "name" (JStr "Acme Inc"); Field "tax_id" (JStr "000000000") ])).
Proof.
  intros cfg data.
  destruct (@onboardingData_demo_profile cfg (Sample.session "FR" ExpenseManagement)
              (OnboardBody.mk "Acme Inc" None) eq_refl) as (Htype & _ & Hcompany & _).
  split; [ exact Htype | exact Hcompany ].
Defined.

Lemma createAccountOnboardingUrl_request_witness :
  let g := Sample.gateway None in
  let cfg := Sample.config false (Some "https://app.example") in
  let w := Sample.world_with_alice in
  ∃ params res,
    new_events w (@createAccountOnboardingUrl _ g cfg (JStr "acct_0") w).2
    = [ AccountLinksCreate params res ]
    ∧ params !! "refresh_url" = Some (JStr "https://app.example/onboard")
    ∧ params !! "return_url" = Some (JStr "https://app.example/").
Proof.
  intros g cfg w.
  destruct (@createAccountOnboardingUrl_request _ g cfg (JStr "acct_0") w
              "https://app.example" eq_refl)
    as (_ & params & res & Hev & _ & _ & Hrefresh & Hreturn & _).
  exists params, res. split; [ exact Hev |]. split; [ exact Hrefresh | exact Hreturn ].
Defined.

Lemma hasOutstandingRequirements_retrieve_failure_witness :
  @hasOutstandingRequirements _ Outage.gateway "acct_0" Outage.world
  = (Thrown Outage.unavailable,
     mkWorld [ Sample.alice ] () [ AccountsRetrieve "acct_0" ]).
Proof.
  exact (@hasOutstandingRequirements_retrieve_failure _ Outage.gateway "acct_0" Outage.world
           Outage.unavailable eq_refl).
Defined.

(* ===================================================================== *)
(** ** Two more runs *)
(* ===================================================================== *)

(** The provider returns an account and the database refuses the insert:
    the handler throws, the table is as it was, and the account stays with
    the provider. *)
Lemma register_insert_refused_sample :
  let cfg := Sample.config false None in
  @register _ (Sample.gateway None) Sample.libraries cfg Outage.database Sample.bob
    Sample.world_with_alice
  = (Thrown (Error "database unavailable"),
     mkWorld [ Sample.alice ] []
       [ AccountsCreate "US" (@accountCreateParams cfg (Some "bob@example.com") (Some "US"))
           (Some "acct_1") ]).
Proof. vm_compute. reflexivity. Qed.

(** Fifteen bytes of UTF-8, seven UTF-16 code units: too short a password,
    though it has a digit and both cases. *)
Lemma password_utf8_sample :
  String.length "Aa1日本語の" = 15
  ∧ js_length "Aa1日本語の" = 7
  ∧ failures password_tests (Some "Aa1日本語の")
    = [ "Password must have at least 8 characters" ].
Proof. repeat split; reflexivity. Qed.
